(** * Healthcare risk assessment: scoring engine and resilient API client

    A shallow embedding of [src/lib/risk-scoring.ts], [src/lib/utils.ts]
    and [src/lib/api-client.ts].

    - JavaScript strings are sequences of UTF-16 code units ([list N]).
    - JavaScript numbers are IEEE 754 binary64 values ([spec_float] with
      precision 53 and maximal exponent 1024); comparisons are the IEEE
      ones, so every comparison with NaN is false.
    - Scores are the small integer literals of the source, kept in [Z].
    - Values have the types the TypeScript interfaces give them: a vital
      sign is a number, a string, null or undefined, a page count is an
      integer.
    - The network is a scripted server answering the n-th request; the
      client threads a world (request counter and event trace) through a
      state and exception monad. Sleeping, console output and progress
      notifications are events of the trace; the progress observer does
      not throw. *)

From Stdlib Require Import ZArith NArith List Bool String Ascii Lia.
From Stdlib Require Import Floats.SpecFloat.
Import ListNotations.

Local Open Scope Z_scope.

(** ** JavaScript strings *)

Module Js.

Definition JsString := list N.

(** The code units of an ASCII literal. *)
Fixpoint str (s : string) : JsString :=
  match s with
  | EmptyString => []
  | String c s' => N_of_ascii c :: str s'
  end.

(** WhiteSpace and LineTerminator code points of ECMAScript; they are
    what [String.prototype.trim] strips and what [Number] skips. *)
Definition isWhiteSpace (c : N) : bool :=
  ((9 <=? c) && (c <=? 13) || (c =? 32) || (c =? 160) || (c =? 5760)
   || (8192 <=? c) && (c <=? 8202)
   || (c =? 8232) || (c =? 8233) || (c =? 8239) || (c =? 8287)
   || (c =? 12288) || (c =? 65279))%N.

Fixpoint trimStart (s : JsString) : JsString :=
  match s with
  | [] => []
  | c :: s' => if isWhiteSpace c then trimStart s' else s
  end.

Definition trimEnd (s : JsString) : JsString := rev (trimStart (rev s)).

Definition trim (s : JsString) : JsString := trimEnd (trimStart s).

(** [s.split(sep)] for a separator of one code unit: the result is never
    empty, and the empty string splits into one empty part. *)
Fixpoint split (sep : N) (s : JsString) : list JsString :=
  match s with
  | [] => [[]]
  | c :: s' =>
      if (c =? sep)%N then [] :: split sep s'
      else match split sep s' with
           | p :: ps => (c :: p) :: ps
           | [] => [[c]]
           end
  end.

(** ** JavaScript numbers *)

Definition prec := 53.
Definition emax := 1024.

Definition JsNumber := spec_float.

Definition NaN : JsNumber := S754_nan.
Definition Infinity (neg : bool) : JsNumber := S754_infinity neg.

Definition isNaN (x : JsNumber) : bool :=
  match x with S754_nan => true | _ => false end.

(** [x >= y], [x > y] and [x < y] of the language. *)
Definition geb (x y : JsNumber) : bool := SFleb y x.
Definition gtb (x y : JsNumber) : bool := SFltb y x.
Definition ltb (x y : JsNumber) : bool := SFltb x y.

(** The Number value of the mathematical value [(-1)^neg * m * 10^e10]:
    the nearest binary64, ties to even, whatever the number of digits
    (the conversion the engines implement). *)
Definition ofDecimal (neg : bool) (m : Z) (e10 : Z) : JsNumber :=
  match m with
  | Zpos p =>
      match e10 with
      | Zneg k =>
          SFdiv prec emax (S754_finite neg p 0)
                (S754_finite false (Pos.pow 10 k) 0)
      | _ => binary_round prec emax neg (p * Z.to_pos (10 ^ e10))%positive 0
      end
  | _ => S754_zero neg
  end.

(** A numeric literal of the source: an integer or a decimal fraction. *)
Definition int (n : Z) : JsNumber := ofDecimal (n <? 0) (Z.abs n) 0.

(** *** [Number(string)]: the StringToNumber conversion *)

Definition digitValue (base : N) (c : N) : option Z :=
  let v :=
    if ((48 <=? c) && (c <=? 57))%N then Some (c - 48)%N
    else if ((97 <=? c) && (c <=? 102))%N then Some (c - 87)%N
    else if ((65 <=? c) && (c <=? 70))%N then Some (c - 55)%N
    else None in
  match v with
  | Some d => if (d <? base)%N then Some (Z.of_N d) else None
  | None => None
  end.

(** The longest prefix of digits of [s] in [base] (most significant
    first) and what follows it. *)
Fixpoint spanDigits (base : N) (s : JsString) : list Z * JsString :=
  match s with
  | [] => ([], [])
  | c :: s' =>
      match digitValue base c with
      | Some d => let (ds, r) := spanDigits base s' in (d :: ds, r)
      | None => ([], s)
      end
  end.

Definition digitsValue (base : Z) (ds : list Z) : Z :=
  fold_left (fun acc d => acc * base + d) ds 0.

(** 0x, 0o and 0b literals: unsigned, with at least one digit. *)
Definition parseNonDecimal (s : JsString) : option JsNumber :=
  match s with
  | 48%N :: p :: ds =>
      let base :=
        if ((p =? 120) || (p =? 88))%N then Some 16%N
        else if ((p =? 111) || (p =? 79))%N then Some 8%N
        else if ((p =? 98) || (p =? 66))%N then Some 2%N
        else None in
      match base with
      | Some b =>
          match spanDigits b ds with
          | ((_ :: _) as vs, []) => Some (int (digitsValue (Z.of_N b) vs))
          | _ => None
          end
      | None => None
      end
  | _ => None
  end.

(** An optional sign: the flag is true for [-]. *)
Definition parseSign (s : JsString) : bool * JsString :=
  match s with
  | 43%N :: r => (false, r)
  | 45%N :: r => (true, r)
  | _ => (false, s)
  end.

(** ExponentPart, or nothing: the decimal exponent, when the rest of the
    literal is well formed. *)
Definition parseExponent (s : JsString) : option Z :=
  match s with
  | [] => Some 0
  | c :: r =>
      if ((c =? 101) || (c =? 69))%N then
        let (neg, r') := parseSign r in
        match spanDigits 10 r' with
        | ((_ :: _) as ds, []) =>
            Some (if neg then - digitsValue 10 ds else digitsValue 10 ds)
        | _ => None
        end
      else None
  end.

Definition parseUnsignedDecimal (neg : bool) (s : JsString) : option JsNumber :=
  if list_eq_dec N.eq_dec s (str "Infinity") then Some (Infinity neg)
  else
    let (ip, r1) := spanDigits 10 s in
    let '(fp, r2) :=
      match r1 with
      | 46%N :: r => spanDigits 10 r
      | _ => ([], r1)
      end in
    match ip ++ fp with
    | [] => None
    | ds =>
        match parseExponent r2 with
        | Some e =>
            Some (ofDecimal neg (digitsValue 10 ds) (e - Z.of_nat (List.length fp)))
        | None => None
        end
    end.

Definition Number (s : JsString) : JsNumber :=
  match trim s with
  | [] => S754_zero false
  | t =>
      match parseNonDecimal t with
      | Some x => x
      | None =>
          let (neg, r) := parseSign t in
          match parseUnsignedDecimal neg r with
          | Some x => x
          | None => NaN
          end
      end
  end.

End Js.

Import Js.

(** ** Data model ([src/types/assessment.ts]) *)

(** A vital sign typed [number | string | null] (or left out of the
    record altogether). *)
Inductive JsValue :=
| VNull
| VUndefined
| VNumber (n : JsNumber)
| VString (s : JsString).

Inductive RiskCategory := Normal | Elevated | Stage1 | Stage2 | Invalid.

(** The label of a category as the source spells it. *)
Definition categoryLabel (c : RiskCategory) : string :=
  match c with
  | Normal => "Normal"
  | Elevated => "Elevated"
  | Stage1 => "Stage 1"
  | Stage2 => "Stage 2"
  | Invalid => "Invalid"
  end.

(** The result of [scoreBloodPressure]. *)
Module BP.
Record result := mk { score : Z; isValid : bool; category : RiskCategory }.
End BP.

(** The result of [scoreTemperature] and of [scoreAge]. *)
Module Field.
Record result := mk { score : Z; isValid : bool }.
End Field.

(** [blood_pressure] is [None] when it is null or undefined. *)
Record Patient := mkPatient {
  patient_id : string;
  name : string;
  age : JsValue;
  gender : string;
  blood_pressure : option JsString;
  temperature : JsValue;
  visit_date : string;
  diagnosis : string;
  medications : string
}.

Module Risk.
Record RiskScore := mk {
  bloodPressure : Z;
  temperature : Z;
  age : Z;
  total : Z
}.
End Risk.

(** [PatientWithRisk extends Patient]: the patient's own fields, spread
    into the new object, and the four derived ones. *)
Record PatientWithRisk := mkPatientWithRisk {
  r_patient_id : string;
  r_name : string;
  r_age : JsValue;
  r_gender : string;
  r_blood_pressure : option JsString;
  r_temperature : JsValue;
  r_visit_date : string;
  r_diagnosis : string;
  r_medications : string;
  riskScore : Risk.RiskScore;
  isHighRisk : bool;
  hasFever : bool;
  hasDataQualityIssues : bool
}.

(** ** Field scorers ([src/lib/risk-scoring.ts]) *)

(** The numeric literals of the scoring rules. *)
Definition lit_101_0 : JsNumber := ofDecimal false 1010 (-1).
Definition lit_99_6 : JsNumber := ofDecimal false 996 (-1).

Definition invalidBP : BP.result := BP.mk 0 false Invalid.

(** [s === ""] *)
Definition isEmpty (s : JsString) : bool :=
  match s with [] => true | _ => false end.

(** The systolic if-chain of [scoreBloodPressure]. *)
Definition systolicScore (systolic : JsNumber) : Z :=
  if geb systolic (int 140) then 4
  else if geb systolic (int 130) then 3
  else if geb systolic (int 120) then 2
  else 1.

(** The diastolic if-chain; its last branch leaves the initial 0. *)
Definition diastolicScore (systolic diastolic : JsNumber) : Z :=
  if geb diastolic (int 90) then 4
  else if geb diastolic (int 80) then 3
  else if geb systolic (int 120) && ltb systolic (int 130) then 2
  else if ltb systolic (int 120) then 1
  else 0.

Definition categoryOf (finalScore : Z) : RiskCategory :=
  if finalScore =? 4 then Stage2
  else if finalScore =? 3 then Stage1
  else if finalScore =? 2 then Elevated
  else Normal.

Definition scoreBloodPressure (bp : option JsString) : BP.result :=
  match bp with
  | None => invalidBP
  | Some bp =>
      if isEmpty bp || isEmpty (trim bp) then invalidBP
      else
        let parts := split 47 bp in
        if negb (List.length parts =? 2)%nat then invalidBP
        else
          let systolicStr := trim (nth 0 parts []) in
          let diastolicStr := trim (nth 1 parts []) in
          if isEmpty systolicStr || isEmpty diastolicStr then invalidBP
          else
            let systolic := Number systolicStr in
            let diastolic := Number diastolicStr in
            if isNaN systolic || isNaN diastolic then invalidBP
            else
              let finalScore :=
                Z.max (systolicScore systolic)
                      (diastolicScore systolic diastolic) in
              BP.mk finalScore true (categoryOf finalScore)
  end.

(** [typeof v === "string" ? Number(v) : v] for a value that is neither
    null nor undefined. *)
Definition toNumber (v : JsValue) : option JsNumber :=
  match v with
  | VNull | VUndefined => None
  | VNumber n => Some n
  | VString s => Some (Number s)
  end.

Definition scoreTemperature (temp : JsValue) : Field.result :=
  match toNumber temp with
  | None => Field.mk 0 false
  | Some temperature =>
      if isNaN temperature then Field.mk 0 false
      else if geb temperature lit_101_0 then Field.mk 2 true
      else if geb temperature lit_99_6 then Field.mk 1 true
      else Field.mk 0 true
  end.

Definition scoreAge (age : JsValue) : Field.result :=
  match toNumber age with
  | None => Field.mk 0 false
  | Some ageNum =>
      if isNaN ageNum then Field.mk 0 false
      else if gtb ageNum (int 65) then Field.mk 2 true
      else if geb ageNum (int 40) then Field.mk 1 true
      else Field.mk 1 true
  end.

(** [Number(patient.temperature)]: null converts to 0 and undefined to
    NaN, a number to itself. *)
Definition NumberOfValue (v : JsValue) : JsNumber :=
  match v with
  | VNull => S754_zero false
  | VUndefined => NaN
  | VNumber n => n
  | VString s => Number s
  end.

Definition isAbsent (v : JsValue) : bool :=
  match v with VNull | VUndefined => true | _ => false end.

Definition assessPatientRisk (patient : Patient) : PatientWithRisk :=
  let bpResult := scoreBloodPressure (blood_pressure patient) in
  let tempResult := scoreTemperature (temperature patient) in
  let ageResult := scoreAge (age patient) in
  let riskScore :=
    Risk.mk (BP.score bpResult) (Field.score tempResult) (Field.score ageResult)
      (BP.score bpResult + Field.score tempResult + Field.score ageResult) in
  let hasDataQualityIssues :=
    negb (BP.isValid bpResult) || negb (Field.isValid tempResult)
    || negb (Field.isValid ageResult) in
  let isHighRisk := Risk.total riskScore >=? 4 in
  let hasFever :=
    Field.isValid tempResult && negb (isAbsent (temperature patient))
    && geb (NumberOfValue (temperature patient)) lit_99_6 in
  mkPatientWithRisk
    (patient_id patient) (name patient) (age patient) (gender patient)
    (blood_pressure patient) (temperature patient) (visit_date patient)
    (diagnosis patient) (medications patient)
    riskScore isHighRisk hasFever hasDataQualityIssues.

(** The three cohorts of [categorizePatients], each in input order. *)
Record AssessmentResults := mkAssessmentResults {
  high_risk_patients : list string;
  fever_patients : list string;
  data_quality_issues : list string
}.

Definition categorizePatients (patients : list PatientWithRisk)
  : AssessmentResults :=
  fold_left
    (fun acc patient =>
       mkAssessmentResults
         (if isHighRisk patient
          then high_risk_patients acc ++ [r_patient_id patient]
          else high_risk_patients acc)
         (if hasFever patient
          then fever_patients acc ++ [r_patient_id patient]
          else fever_patients acc)
         (if hasDataQualityIssues patient
          then data_quality_issues acc ++ [r_patient_id patient]
          else data_quality_issues acc))
    patients (mkAssessmentResults [] [] []).

(** ** Backoff policy ([src/lib/utils.ts]) *)

(** [baseDelay * Math.pow(2, attempt)] for the attempt numbers of the
    callers, which count up from 0. *)
Definition getExponentialBackoff (attempt baseDelay : Z) : Z :=
  baseDelay * 2 ^ attempt.

Definition isRetryableError (status : Z) : bool :=
  (status =? 429) || (status =? 500) || (status =? 503).

(** ** The HTTP boundary ([src/lib/api-client.ts]) *)

Definition MAX_RETRIES : Z := 5.
Definition BASE_DELAY : Z := 1000.
Definition RATE_LIMIT_DELAY : Z := 500.

Record Pagination := mkPagination {
  page : Z;
  limit : Z;
  total : Z;
  totalPages : Z;
  hasNext : bool;
  hasPrevious : bool
}.

Record Metadata := mkMetadata {
  timestamp : string;
  version : string;
  requestId : string
}.

(** A page envelope as it comes off the wire: [data] is [None] when the
    field is not an array, [pagination] and [metadata] are [None] when
    they are missing (or falsy). *)
Record PatientsResponse := mkPatientsResponse {
  data : option (list Patient);
  pagination : option Pagination;
  metadata : option Metadata
}.

(** What [response.json()] resolves to: an object seen through the shape
    [T] the caller expects, or a value that is not an object (null, a
    number, a string, a boolean). *)
Inductive JsonValue (T : Type) :=
| NotAnObject
| Obj (v : T).
Arguments NotAnObject {T}.
Arguments Obj {T} v.

(** An HTTP response; [json] is [None] when the body is not JSON and
    [response.json()] rejects. *)
Record Response (T : Type) := mkResponse {
  status : Z;
  statusText : string;
  text : string;
  json : option (JsonValue T)
}.
Arguments mkResponse {T}.
Arguments status {T}.
Arguments statusText {T}.
Arguments text {T}.
Arguments json {T}.

(** [response.ok] *)
Definition ok {T} (response : Response T) : bool :=
  (200 <=? status response) && (status response <=? 299).

Inductive Request :=
| GetPatients (baseUrl apiKey : string) (page limit : Z)
| PostAssessment (baseUrl apiKey : string) (results : AssessmentResults).

(** [fetch] resolves to a response or rejects (the network is down). *)
Inductive FetchOutcome (T : Type) :=
| NetworkFailure (reason : string)
| Reply (response : Response T).
Arguments NetworkFailure {T}.
Arguments Reply {T}.

(** The [Error] values the client can raise, one constructor per message
    template of the source. *)
Inductive ApiError :=
| ErrHttp (status : Z) (detail : string)
    (* `HTTP ${status}: ${detail}` *)
| ErrInvalidFormat
    (* 'Invalid response format: response is not an object' *)
| ErrFailedPage (page attempts : Z)
    (* `Failed to fetch page ${page} after ${MAX_RETRIES} attempts` *)
| ErrFailedSubmit (attempts : Z)
    (* `Failed to submit assessment after ${MAX_RETRIES} attempts` *)
| ErrNetwork (reason : string)
    (* the rejection of fetch *)
| ErrJson.
    (* the SyntaxError of response.json() *)

(** The HTTP status an error reports, if it reports one. *)
Definition errorStatus (e : ApiError) : option Z :=
  match e with
  | ErrHttp s _ => Some s
  | _ => None
  end.

(** What the retry loop is working on, for the console messages. *)
Inductive Target := PageTarget (page : Z) | SubmissionTarget.

Inductive ConsoleMessage :=
| LogRetryable (status : Z) (target : Target) (attempt delay : Z)
| LogError (target : Target) (attempt delay : Z)
| WarnInvalidData (page : Z).

(** The [type] of a progress event: "info", "success", "warning" or
    "error". *)
Inductive ProgressType := Info | Success | Warning | Error.

Inductive ProgressMessage :=
| MsgStarting
| MsgFetching (page totalPages : Z)
| MsgFetched (page totalPages patients : Z)
| MsgAllFetched (patients : Z)
| MsgError (e : ApiError).

Record FetchProgress := mkProgress {
  p_page : Z;
  p_totalPages : Z;
  patientsCount : Z;
  message : ProgressMessage;
  type : ProgressType
}.

(** Everything the client does to the outside, in order. *)
Inductive Event :=
| EvFetch (req : Request)
| EvSleep (ms : Z)
| EvConsole (m : ConsoleMessage)
| EvProgress (p : FetchProgress).

(** The world: how many requests the server has seen, and the trace. *)
Record World := mkWorld {
  sent : nat;
  trace : list Event
}.

Definition initial : World := mkWorld 0 [].

Inductive Outcome (A : Type) :=
| Ok (a : A)
| Throw (e : ApiError).
Arguments Ok {A}.
Arguments Throw {A}.

(** *** The monad of the client: state and exceptions *)

Definition M (A : Type) : Type := World -> Outcome A * World.

Definition ret {A} (a : A) : M A := fun w => (Ok a, w).

Definition throw {A} (e : ApiError) : M A := fun w => (Throw e, w).

Definition bind {A B} (m : M A) (k : A -> M B) : M B :=
  fun w =>
    match m w with
    | (Ok a, w') => k a w'
    | (Throw e, w') => (Throw e, w')
    end.

(** [try { m } catch (error) { handler }] *)
Definition tryCatch {A} (m : M A) (handler : ApiError -> M A) : M A :=
  fun w =>
    match m w with
    | (Ok a, w') => (Ok a, w')
    | (Throw e, w') => handler e w'
    end.

Definition emit (e : Event) : M unit :=
  fun w => (Ok tt, mkWorld (sent w) (trace w ++ [e])).

Declare Scope client_scope.
Delimit Scope client_scope with client.
Notation "x <- m ;; k" := (bind m (fun x => k))
  (at level 61, m at next level, right associativity) : client_scope.
Notation "m ;; k" := (bind m (fun _ => k))
  (at level 61, right associativity) : client_scope.
Local Open Scope client_scope.

(** A [try] block on its own: how it ended, for the code after it. *)
Definition attempted {A} (m : M A) : M (ApiError + A) :=
  tryCatch (a <- m;; ret (inr a)) (fun error => ret (inl error)).

Definition sleep (ms : Z) : M unit := emit (EvSleep ms).
Definition console (m : ConsoleMessage) : M unit := emit (EvConsole m).

(** [onProgress?.(p)]: the observer is an event sink. *)
Definition onProgress (p : FetchProgress) : M unit := emit (EvProgress p).

(** What the statement after a loop iteration's [try] sees. *)
Inductive LoopStep (A : Type) :=
| Return (a : A)
| Continue.
Arguments Return {A}.
Arguments Continue {A}.

Section Client.

Variable T : Type.

(** The server: its answer to the [n]-th request of the run. *)
Variable server : nat -> Request -> FetchOutcome T.

Definition fetch (req : Request) : M (Response T) :=
  fun w =>
    let w' := mkWorld (S (sent w)) (trace w ++ [EvFetch req]) in
    match server (sent w) req with
    | NetworkFailure reason => (Throw (ErrNetwork reason), w')
    | Reply response => (Ok response, w')
    end.

(** [await response.json()] *)
Definition parseJson (response : Response T) : M (JsonValue T) :=
  match json response with
  | Some v => ret v
  | None => throw ErrJson
  end.

(** The branch both loops take on a retryable status: sleep, then
    [continue]. *)
Definition retryLater {A} (target : Target) (attempt : Z)
    (response : Response T) : M (LoopStep A) :=
  let baseDelayForRetry :=
    if status response =? 429 then BASE_DELAY * 2 else BASE_DELAY in
  let delay := getExponentialBackoff attempt baseDelayForRetry in
  console (LogRetryable (status response) target (attempt + 1) delay);;
  sleep delay;;
  ret Continue.

(** The [for (let attempt = 0; attempt < MAX_RETRIES; attempt++)] loop of
    [fetchPatientsPage] and of [submitAssessment], which differ in the
    [try] block and in the message of the final error only. [remaining]
    is [MAX_RETRIES - attempt]; the [try] block ends in [return],
    in [continue] or in a throw that the [catch] block handles. *)
Definition afterLoop {A} (target : Target) (lastError : option ApiError)
  : M A :=
  match lastError with
  | Some e => throw e
  | None =>
      throw match target with
            | PageTarget page => ErrFailedPage page MAX_RETRIES
            | SubmissionTarget => ErrFailedSubmit MAX_RETRIES
            end
  end.

Fixpoint retryLoop {A} (target : Target) (tryBlock : Z -> M (LoopStep A))
    (remaining : nat) (attempt : Z) (lastError : option ApiError) : M A :=
  match remaining with
  | O => afterLoop target lastError
  | S remaining' =>
      ended <- attempted (tryBlock attempt);;
      match ended with
      | inr (Return a) => ret a
      | inr Continue =>
          retryLoop target tryBlock remaining' (attempt + 1) lastError
      | inl error =>
          let lastError := Some error in
          if attempt =? MAX_RETRIES - 1 then afterLoop target lastError
          else
            let delay := getExponentialBackoff attempt BASE_DELAY in
            console (LogError target (attempt + 1) delay);;
            sleep delay;;
            retryLoop target tryBlock remaining' (attempt + 1) lastError
      end
  end.

End Client.

(** ** Paginated retrieval *)

Section Patients.

Variable server : nat -> Request -> FetchOutcome PatientsResponse.

(** The value of [new Date().toISOString()] when metadata is made up. *)
Variable now : string.

Variables apiKey baseUrl : string.

(** The envelope returned for a body whose [data] is not an array:
    [{ data: [], pagination: data.pagination || {...},
       metadata: data.metadata || {...} }]. *)
Definition withEmptyData (page limit : Z) (body : PatientsResponse)
  : PatientsResponse :=
  mkPatientsResponse
    (Some [])
    (Some match pagination body with
          | Some p => p
          | None => mkPagination page limit 0 1 false false
          end)
    (Some match metadata body with
          | Some m => m
          | None => mkMetadata now "v1.0" "unknown"
          end).

(** The [try] block of [fetchPatientsPage]. *)
Definition pageTryBlock (page limit : Z) (attempt : Z)
  : M (LoopStep PatientsResponse) :=
  response <- fetch _ server (GetPatients baseUrl apiKey page limit);;
  if isRetryableError (status response) then
    retryLater _ (PageTarget page) attempt response
  else if negb (ok response) then
    throw (ErrHttp (status response) (statusText response))
  else
    parsed <- parseJson _ response;;
    match parsed with
    | NotAnObject => throw ErrInvalidFormat
    | Obj body =>
        match data body with
        | None =>
            console (WarnInvalidData page);;
            ret (Return (withEmptyData page limit body))
        | Some _ => ret (Return body)
        end
    end.

Definition fetchPatientsPage (page limit : Z) : M PatientsResponse :=
  retryLoop (PageTarget page) (pageTryBlock page limit)
    (Z.to_nat MAX_RETRIES) 0 None.

Definition count (patients : list Patient) : Z :=
  Z.of_nat (List.length patients).

(** [if (Array.isArray(d) && d.length > 0) allPatients.push(...d)] *)
Definition pushAll (allPatients : list Patient)
    (d : option (list Patient)) : list Patient :=
  match d with
  | Some l => if 0 <? count l then allPatients ++ l else allPatients
  | None => allPatients
  end.

(** [Array.isArray(d) ? d.length : 0] *)
Definition lengthOrZero (d : option (list Patient)) : Z :=
  match d with
  | Some l => count l
  | None => 0
  end.

(** The [catch] block of [fetchAllPatients], with the locals as they are
    when [m] throws. Within the [try] block only the page fetches can
    throw, so the block is wrapped around each of them. *)
Definition reportingErrors {A} (currentPage totalPages : Z)
    (allPatients : list Patient) (m : M A) : M A :=
  tryCatch m
    (fun e =>
       onProgress
         (mkProgress currentPage totalPages (count allPatients)
            (MsgError e) Error);;
       throw e).

(** The loop [for (currentPage = 2; currentPage <= totalPages;
    currentPage++)]; [remaining] is the number of iterations left. *)
Fixpoint fetchRemainingPages (remaining : nat) (currentPage totalPages : Z)
    (allPatients : list Patient) : M (list Patient) :=
  match remaining with
  | O => ret allPatients
  | S remaining' =>
      sleep RATE_LIMIT_DELAY;;
      onProgress
        (mkProgress currentPage totalPages (count allPatients)
           (MsgFetching currentPage totalPages) Info);;
      pageData <- reportingErrors currentPage totalPages allPatients
                    (fetchPatientsPage currentPage 5);;
      let patientsInPage := lengthOrZero (data pageData) in
      let allPatients := pushAll allPatients (data pageData) in
      onProgress
        (mkProgress currentPage totalPages (count allPatients)
           (MsgFetched currentPage totalPages patientsInPage) Success);;
      fetchRemainingPages remaining' (currentPage + 1) totalPages allPatients
  end.

(** [firstPageData.pagination?.totalPages || 1] *)
Definition totalPagesOf (firstPageData : PatientsResponse) : Z :=
  match pagination firstPageData with
  | Some p => if totalPages p =? 0 then 1 else totalPages p
  | None => 1
  end.

Definition fetchAllPatients : M (list Patient) :=
  let currentPage := 1 in
  onProgress (mkProgress currentPage 1 0 MsgStarting Info);;
  firstPageData <- reportingErrors currentPage 1 []
                     (fetchPatientsPage currentPage 5);;
  let allPatients := pushAll [] (data firstPageData) in
  let totalPages := totalPagesOf firstPageData in
  let firstPageCount := lengthOrZero (data firstPageData) in
  onProgress
    (mkProgress currentPage totalPages (count allPatients)
       (MsgFetched currentPage totalPages firstPageCount) Success);;
  allPatients <- fetchRemainingPages (Z.to_nat (totalPages - 1)) 2
                   totalPages allPatients;;
  onProgress
    (mkProgress totalPages totalPages (count allPatients)
       (MsgAllFetched (count allPatients)) Success);;
  ret allPatients.

End Patients.

(** ** Submission *)

Section Submission.

(** The result of the scoring endpoint, passed through as it is. *)
Variable SubmissionResponse : Type.

Variable server : nat -> Request -> FetchOutcome SubmissionResponse.

Variables apiKey baseUrl : string.

(** The [try] block of [submitAssessment]. *)
Definition submitTryBlock (results : AssessmentResults) (attempt : Z)
  : M (LoopStep (JsonValue SubmissionResponse)) :=
  response <- fetch _ server (PostAssessment baseUrl apiKey results);;
  if isRetryableError (status response) then
    retryLater _ SubmissionTarget attempt response
  else if negb (ok response) then
    let errorText := text response in
    throw (ErrHttp (status response) errorText)
  else
    parsed <- parseJson _ response;;
    ret (Return parsed).

Definition submitAssessment (results : AssessmentResults)
  : M (JsonValue SubmissionResponse) :=
  retryLoop SubmissionTarget (submitTryBlock results)
    (Z.to_nat MAX_RETRIES) 0 None.

End Submission.

(** ** The bands as the design document words them *)

Definition leb (x y : JsNumber) : bool := SFleb x y.

Definition lit_99_5 : JsNumber := ofDecimal false 995 (-1).

(** Systolic: <120 is 1, 120-129 is 2, 130-139 is 3, >=140 is 4. *)
Definition systolicBand (systolic : JsNumber) : Z :=
  if ltb systolic (int 120) then 1
  else if ltb systolic (int 130) then 2
  else if ltb systolic (int 140) then 3
  else 4.

(** Diastolic: >=90 is 4, 80-89 is 3; below 80 it is 2 for a systolic in
    [120,130), 1 for a systolic below 120 and 0 for one of 130 or more. *)
Definition diastolicBand (systolic diastolic : JsNumber) : Z :=
  if geb diastolic (int 90) then 4
  else if geb diastolic (int 80) && ltb diastolic (int 90) then 3
  else if geb systolic (int 120) && ltb systolic (int 130) then 2
  else if ltb systolic (int 120) then 1
  else 0.

(** 4 is "Stage 2", 3 is "Stage 1", 2 is "Elevated", else "Normal". *)
Definition labelOfScore (score : Z) : string :=
  if score =? 4 then "Stage 2"
  else if score =? 3 then "Stage 1"
  else if score =? 2 then "Elevated"
  else "Normal".

(** A string of white space only (the empty one included). *)
Definition isBlank (s : JsString) : bool := forallb isWhiteSpace s.

(** ** Vocabulary of the statements about the client *)

(** The body of a successful response that is a JSON object: the status
    is neither retryable nor a failure and the body parses to an
    object. *)
Definition successBody {T} (response : Response T) : option T :=
  if isRetryableError (status response) then None
  else if negb (ok response) then None
  else match json response with
       | Some (Obj body) => Some body
       | _ => None
       end.

(** What [fetchPatientsPage] hands back for the body of a successful
    response that is a JSON object. *)
Definition delivered (now : string) (page limit : Z) (body : PatientsResponse)
  : PatientsResponse :=
  match data body with
  | Some _ => body
  | None => withEmptyData now page limit body
  end.

(** The records a page body contributes: none when [data] is not an
    array. *)
Definition recordsOf (body : PatientsResponse) : list Patient :=
  match data body with
  | Some l => l
  | None => []
  end.

(** The page numbers [first], [first + 1], ... ([n] of them). *)
Fixpoint pageRange (first : Z) (n : nat) : list Z :=
  match n with
  | O => []
  | S n' => first :: pageRange (first + 1) n'
  end.

(** The requests and the sleeps of a trace, in order. *)
Definition io (t : list Event) : list Event :=
  filter (fun e => match e with EvFetch _ | EvSleep _ => true | _ => false end) t.

(** The sleeps of a trace, in order. *)
Definition sleeps (t : list Event) : list Z :=
  flat_map (fun e => match e with EvSleep ms => [ms] | _ => [] end) t.

(** The world after the [catch] block of a retry loop has logged and
    slept. *)
Definition afterCatch (target : Target) (attempt : Z) (w : World) : World :=
  let delay := getExponentialBackoff attempt BASE_DELAY in
  mkWorld (sent w)
    (trace w ++ [EvConsole (LogError target (attempt + 1) delay); EvSleep delay]).

(** ** Scripted servers *)

Definition sampleNow : string := "2024-01-15T00:00:00Z".
Definition sampleKey : string := "ak_demo".
Definition sampleUrl : string := "https://api.example/api".

Definition samplePatient (id : string) : Patient :=
  mkPatient id "Sample" (VNumber (int 45)) "F" (Some (str "120/80"))
    (VNumber lit_99_5) "2024-01-15" "Checkup" "None".

(** A well-formed page: one record, [totalPages] as given. *)
Definition pageReply (n totalPages : Z) : Response PatientsResponse :=
  mkResponse 200 "OK" ""
    (Some (Obj (mkPatientsResponse
                  (Some [samplePatient "DEMO001"])
                  (Some (mkPagination n 5 1 totalPages false false))
                  (Some (mkMetadata "2024-01-15T00:00:00Z" "v1.0" "r1"))))).

(** A response of the given status whose body is not JSON. *)
Definition statusReply {T} (status : Z) (statusText : string) : Response T :=
  mkResponse status statusText "<html>error</html>" None.

(** A server that answers every request with the same status. *)
Definition alwaysStatus {T} (status : Z) (statusText : string)
  : nat -> Request -> FetchOutcome T :=
  fun _ _ => Reply (statusReply status statusText).

(** A server that answers the first [failures] requests with a status
    and every later one with [good]. *)
Definition failingFirst {T} (failures : nat) (status : Z)
    (statusText : string) (good : Response T)
  : nat -> Request -> FetchOutcome T :=
  fun n _ =>
    if (n <? failures)%nat then Reply (statusReply status statusText)
    else Reply good.

(** A server of three pages whose second page has no [data] array. *)
Definition threePages : nat -> Request -> FetchOutcome PatientsResponse :=
  fun _ req =>
    match req with
    | GetPatients _ _ p _ =>
        if p =? 2 then
          Reply (mkResponse 200 "OK" ""
                   (Some (Obj (mkPatientsResponse None None None))))
        else Reply (pageReply p 3)
    | PostAssessment _ _ _ => NetworkFailure "no route"
    end.

(** A server of [n] well-formed pages. *)
Definition wellFormedPages (n : Z)
  : nat -> Request -> FetchOutcome PatientsResponse :=
  fun _ req =>
    match req with
    | GetPatients _ _ p _ => Reply (pageReply p n)
    | PostAssessment _ _ _ => NetworkFailure "no route"
    end.

(** ** The forwarding endpoints ([src/app/api/fetch-patients/route.ts]
    and [src/app/api/submit-assessment/route.ts]) *)

(** [process.env]: a variable is [None] when it is not set. *)
Record Env := mkEnv {
  API_KEY : option string;
  API_BASE_URL : option string
}.

(** [!v] for an environment variable: not set, or empty. *)
Definition unset (v : option string) : bool :=
  match v with
  | None => true
  | Some EmptyString => true
  | Some _ => false
  end.

Definition valueOf (v : option string) : string :=
  match v with
  | Some s => s
  | None => EmptyString
  end.

(** [NextResponse.json(payload, { status })]; the status is 200 when
    none is given. *)
Record NextResponse (P : Type) := mkNextResponse {
  httpStatus : Z;
  payload : P
}.
Arguments mkNextResponse {P}.
Arguments httpStatus {P}.
Arguments payload {P}.

(** What a route can catch: an error of the client, the SyntaxError of
    [request.json()], or the TypeError of reading a field of null. *)
Inductive RouteError :=
| ClientError (e : ApiError)
| RequestSyntaxError
| NullBodyError.

(** The console output of the routes; the key length is that of a key
    of ASCII characters. *)
Inductive RouteLog :=
| LogEnvironment (hasApiKey hasBaseUrl : bool) (apiKeyLength : option nat)
    (baseUrl : option string)
| LogMissingVariables (hasApiKey hasBaseUrl : bool)
| LogPatients (patients : list Patient)
| LogFetchError (cause : ApiError)
| LogErrorDetails (cause : ApiError)
| LogSubmitError (cause : RouteError).

Inductive GetPayload :=
| GetConfigMissing (hasApiKey hasBaseUrl : bool)
    (* { error: "API configuration missing", details } *)
| GetSuccess (patients : list Patient) (count : Z)
    (* { success: true, patients, count } *)
| GetFailed (cause : ApiError).
    (* { error: "Failed to fetch patients", message } *)

(** A run without an observer: every [onProgress?.(...)] does nothing,
    so the progress events are left out of what the run adds to the
    trace. *)
Definition unobserved {A} (m : M A) : M A :=
  fun w =>
    let (r, w') := m w in
    (r, mkWorld (sent w')
          (trace w
           ++ filter (fun e => match e with EvProgress _ => false | _ => true end)
                (skipn (List.length (trace w)) (trace w')))).

(** [GET] of the fetch-patients route: the response, the console output
    of the route and the world after it. *)
Definition GET (server : nat -> Request -> FetchOutcome PatientsResponse)
    (now : string) (env : Env) (w : World)
  : NextResponse GetPayload * list RouteLog * World :=
  let hasApiKey := negb (unset (API_KEY env)) in
  let hasBaseUrl := negb (unset (API_BASE_URL env)) in
  let environment :=
    LogEnvironment hasApiKey hasBaseUrl
      (option_map String.length (API_KEY env)) (API_BASE_URL env) in
  if unset (API_KEY env) || unset (API_BASE_URL env) then
    (mkNextResponse 500 (GetConfigMissing hasApiKey hasBaseUrl),
     [environment; LogMissingVariables hasApiKey hasBaseUrl], w)
  else
    match unobserved
            (fetchAllPatients server now (valueOf (API_KEY env))
               (valueOf (API_BASE_URL env))) w with
    | (Ok patients, w') =>
        (mkNextResponse 200 (GetSuccess patients (count patients)),
         [environment; LogPatients patients], w')
    | (Throw e, w') =>
        (mkNextResponse 500 (GetFailed e),
         [environment; LogFetchError e; LogErrorDetails e], w')
    end.

(** The body posted to the submit-assessment route: not JSON, null, or
    a value whose three fields are [None] when missing or falsy and
    lists of identifiers otherwise, as [AssessmentResults] types them. *)
Inductive PostedBody :=
| PostedNotJson
| PostedNull
| PostedValue (high_risk fever quality : option (list string)).

Inductive PostPayload (T : Type) :=
| PostConfigMissing
    (* { error: "API configuration missing" } *)
| PostMissingFields
    (* { error: "Invalid request body. Missing required fields." } *)
| PostResult (result : JsonValue T)
| PostFailed (cause : RouteError).
    (* { error: "Failed to submit assessment", message } *)
Arguments PostConfigMissing {T}.
Arguments PostMissingFields {T}.
Arguments PostResult {T}.
Arguments PostFailed {T}.

(** [POST] of the submit-assessment route. *)
Definition POST (T : Type) (server : nat -> Request -> FetchOutcome T)
    (env : Env) (body : PostedBody) (w : World)
  : NextResponse (PostPayload T) * list RouteLog * World :=
  if unset (API_KEY env) || unset (API_BASE_URL env) then
    (mkNextResponse 500 PostConfigMissing, [], w)
  else
    match body with
    | PostedNotJson =>
        (mkNextResponse 500 (PostFailed RequestSyntaxError),
         [LogSubmitError RequestSyntaxError], w)
    | PostedNull =>
        (mkNextResponse 500 (PostFailed NullBodyError),
         [LogSubmitError NullBodyError], w)
    | PostedValue (Some high_risk) (Some fever) (Some quality) =>
        match submitAssessment T server (valueOf (API_KEY env))
                (valueOf (API_BASE_URL env))
                (mkAssessmentResults high_risk fever quality) w with
        | (Ok result, w') => (mkNextResponse 200 (PostResult result), [], w')
        | (Throw e, w') =>
            (mkNextResponse 500 (PostFailed (ClientError e)),
             [LogSubmitError (ClientError e)], w')
        end
    | PostedValue _ _ _ => (mkNextResponse 400 PostMissingFields, [], w)
    end.

(** An environment with both variables set. *)
Definition sampleEnv : Env := mkEnv (Some sampleKey) (Some sampleUrl).

(** ** Vocabulary of the further properties *)

(** The band of the diastolic reading on its own: 4 from 90 up, 3 from
    80 up, nothing below. *)
Definition diastolicAlone (diastolic : JsNumber) : Z :=
  if geb diastolic (int 90) then 4
  else if geb diastolic (int 80) then 3
  else 0.

(** A code unit that is not the separator of a reading. *)
Definition noSlash (s : JsString) : Prop := ~ In 47%N s.

(** The error the [try] block of [fetchPatientsPage] throws on an
    outcome of [fetch], if it throws on it. *)
Definition failureOfPage (outcome : FetchOutcome PatientsResponse)
  : option ApiError :=
  match outcome with
  | NetworkFailure reason => Some (ErrNetwork reason)
  | Reply response =>
      if isRetryableError (status response) then None
      else if negb (ok response) then
        Some (ErrHttp (status response) (statusText response))
      else match json response with
           | None => Some ErrJson
           | Some NotAnObject => Some ErrInvalidFormat
           | Some (Obj _) => None
           end
  end.

(** The error the [try] block of [submitAssessment] throws on an outcome
    of [fetch], if it throws on it. *)
Definition failureOfSubmit {T} (outcome : FetchOutcome T) : option ApiError :=
  match outcome with
  | NetworkFailure reason => Some (ErrNetwork reason)
  | Reply response =>
      if isRetryableError (status response) then None
      else if negb (ok response) then
        Some (ErrHttp (status response) (text response))
      else match json response with
           | None => Some ErrJson
           | Some _ => None
           end
  end.

(** The time slept over a trace, in milliseconds. *)
Definition totalSleep (t : list Event) : Z := fold_right Z.add 0 (sleeps t).

(** The delays of the [catch] block at the attempts [attempt],
    [attempt + 1], ... ([n] of them). *)
Fixpoint catchDelays (attempt : Z) (n : nat) : list Z :=
  match n with
  | O => []
  | S n' => getExponentialBackoff attempt BASE_DELAY :: catchDelays (attempt + 1) n'
  end.

(** Cohorts to submit, one of them empty. *)
Definition sampleResults : AssessmentResults :=
  mkAssessmentResults ["DEMO002"%string] [] ["DEMO004"%string].

(** * Properties *)

(** ** Order of the Number values *)

Lemma SFcompare_antisym (x y : JsNumber) :
  SFcompare y x = option_map CompOpp (SFcompare x y).
Proof.
  destruct x as [[]|[]| |[] mx ex], y as [[]|[]| |[] my ey];
    cbn; try reflexivity;
    rewrite (Z.compare_antisym ey ex);
    destruct (ey ?= ex); cbn; try reflexivity;
    rewrite (Pos.compare_cont_antisym mx my Eq); reflexivity.
Qed.

Lemma geb_negb_ltb (x y : JsNumber) :
  isNaN x = false -> isNaN y = false -> geb x y = negb (ltb x y).
Proof.
  intros Hx Hy. unfold geb, ltb, SFleb, SFltb.
  rewrite (SFcompare_antisym x y).
  destruct x, y; try discriminate; cbn;
    repeat match goal with
           | |- context [if ?b then _ else _] => destruct b
           end; try reflexivity;
    match goal with
    | |- context [Z.compare ?a ?b] => destruct (Z.compare a b)
    end; cbn; try reflexivity;
    match goal with
    | |- context [Pos.compare_cont Eq ?a ?b] =>
        destruct (Pos.compare_cont Eq a b)
    end; reflexivity.
Qed.

Ltac order_cases :=
  repeat match goal with
         | H : context [Z.compare ?a ?b] |- _ =>
             destruct (Z.compare_spec a b); try discriminate H
         | |- context [Z.compare ?a ?b] => destruct (Z.compare_spec a b)
         | H : context [Pos.compare_cont Eq ?a ?b] |- _ =>
             change (Pos.compare_cont Eq a b) with (Pos.compare a b) in H;
             destruct (Pos.compare_spec a b); try discriminate H
         | |- context [Pos.compare_cont Eq ?a ?b] =>
             change (Pos.compare_cont Eq a b) with (Pos.compare a b);
             destruct (Pos.compare_spec a b)
         end;
  subst; cbn in *; try reflexivity; try discriminate; try lia.

Lemma leb_ltb_trans (x y z : JsNumber) :
  leb x y = true -> ltb y z = true -> ltb x z = true.
Proof.
  unfold leb, ltb, SFleb, SFltb.
  destruct x as [[]|[]| |[] mx ex], y as [[]|[]| |[] my ey],
           z as [[]|[]| |[] mz ez];
    cbn; intros H1 H2; try discriminate; try reflexivity; order_cases.
Qed.

Lemma ltb_leb (x y : JsNumber) : ltb x y = true -> leb x y = true.
Proof.
  unfold leb, ltb, SFleb, SFltb. destruct (SFcompare x y) as [[]|];
    intros; try discriminate; reflexivity.
Qed.

Lemma ltb_trans (x y z : JsNumber) :
  ltb x y = true -> ltb y z = true -> ltb x z = true.
Proof. intros H; apply leb_ltb_trans, ltb_leb, H. Qed.


Lemma systolicScore_band (s : JsNumber) :
  isNaN s = false -> systolicScore s = systolicBand s.
Proof.
  intros Hs. unfold systolicScore, systolicBand.
  rewrite !geb_negb_ltb by (assumption || reflexivity).
  destruct (ltb s (int 120)) eqn:H120.
  - rewrite (ltb_trans s (int 120) (int 130) H120 eq_refl).
    rewrite (ltb_trans s (int 120) (int 140) H120 eq_refl). reflexivity.
  - destruct (ltb s (int 130)) eqn:H130.
    + rewrite (ltb_trans s (int 130) (int 140) H130 eq_refl). reflexivity.
    + destruct (ltb s (int 140)); reflexivity.
Qed.

Lemma diastolicScore_band (s d : JsNumber) :
  isNaN d = false -> diastolicScore s d = diastolicBand s d.
Proof.
  intros Hd. unfold diastolicScore, diastolicBand.
  destruct (geb d (int 90)) eqn:H90; [reflexivity|].
  rewrite (geb_negb_ltb d (int 90) Hd eq_refl) in H90.
  apply negb_false_iff in H90. rewrite H90, andb_true_r. reflexivity.
Qed.

Lemma systolicScore_range (s : JsNumber) : 1 <= systolicScore s <= 4.
Proof.
  unfold systolicScore.
  destruct (geb s (int 140)), (geb s (int 130)), (geb s (int 120)); lia.
Qed.

Lemma diastolicScore_range (s d : JsNumber) : 0 <= diastolicScore s d <= 4.
Proof.
  unfold diastolicScore.
  destruct (geb d (int 90)), (geb d (int 80)),
    (geb s (int 120) && ltb s (int 130)), (ltb s (int 120)); lia.
Qed.

Lemma categoryOf_label (n : Z) : categoryLabel (categoryOf n) = labelOfScore n.
Proof.
  unfold categoryOf, labelOfScore.
  destruct (n =? 4), (n =? 3), (n =? 2); reflexivity.
Qed.

(** ** White space, [trim] and [split] *)

Lemma trimStart_blank (s : JsString) : isBlank s = true -> trimStart s = [].
Proof.
  induction s as [|c s IH]; cbn; [reflexivity|].
  destruct (isWhiteSpace c); cbn; [exact IH | discriminate].
Qed.

Lemma trim_blank (s : JsString) : isBlank s = true -> trim s = [].
Proof.
  intros H. unfold trim, trimEnd. rewrite (trimStart_blank s H). reflexivity.
Qed.

Lemma blank_of_trimStart_nil (s : JsString) :
  trimStart s = [] -> isBlank s = true.
Proof.
  induction s as [|c s IH]; cbn; [reflexivity|].
  destruct (isWhiteSpace c); cbn; [exact IH | discriminate].
Qed.

Lemma blank_of_trimStart_blank (s : JsString) :
  isBlank (trimStart s) = true -> isBlank s = true.
Proof.
  induction s as [|c s IH]; cbn; [reflexivity|].
  destruct (isWhiteSpace c) eqn:Hc; cbn; [exact IH|].
  rewrite Hc. discriminate.
Qed.

Lemma isBlank_rev (s : JsString) : isBlank (rev s) = isBlank s.
Proof.
  unfold isBlank. apply eq_true_iff_eq. rewrite !forallb_forall.
  split; intros H x Hx; apply H; [apply in_rev in Hx | apply in_rev]; exact Hx.
Qed.

Lemma blank_of_trim_nil (s : JsString) : trim s = [] -> isBlank s = true.
Proof.
  unfold trim, trimEnd. intros H.
  apply blank_of_trimStart_blank. rewrite <- isBlank_rev.
  apply blank_of_trimStart_nil.
  apply (f_equal (@rev N)) in H. rewrite rev_involutive in H. exact H.
Qed.

Lemma whiteSpace_not_slash (c : N) : isWhiteSpace c = true -> (c =? 47)%N = false.
Proof.
  intros H. destruct (N.eqb_spec c 47) as [->|]; [|reflexivity].
  discriminate H.
Qed.

Lemma split_blank (s : JsString) : isBlank s = true -> split 47 s = [s].
Proof.
  induction s as [|c s IH]; cbn; [reflexivity|].
  intros H. apply andb_true_iff in H as [Hc Hs].
  rewrite (whiteSpace_not_slash c Hc), (IH Hs). reflexivity.
Qed.

Lemma two_parts_not_blank (s p0 p1 : JsString) :
  split 47 s = [p0; p1] -> isEmpty s || isEmpty (trim s) = false.
Proof.
  intros H. destruct (isEmpty (trim s)) eqn:Ht.
  - assert (Hb : isBlank s = true)
      by (apply blank_of_trim_nil; destruct (trim s); [reflexivity|discriminate]).
    rewrite (split_blank s Hb) in H. discriminate.
  - destruct s; [discriminate H | reflexivity].
Qed.

(** ** Blood pressure *)

Lemma scoreBloodPressure_two_numbers (s p0 p1 : JsString) :
  split 47 s = [p0; p1] ->
  isEmpty (trim p0) = false -> isEmpty (trim p1) = false ->
  isNaN (Number (trim p0)) = false -> isNaN (Number (trim p1)) = false ->
  scoreBloodPressure (Some s) =
  let final := Z.max (systolicScore (Number (trim p0)))
                     (diastolicScore (Number (trim p0)) (Number (trim p1))) in
  BP.mk final true (categoryOf final).
Proof.
  intros Hs He0 He1 Hn0 Hn1. unfold scoreBloodPressure.
  rewrite (two_parts_not_blank s p0 p1 Hs), Hs. cbn [List.length Nat.eqb negb nth].
  rewrite He0, He1, Hn0, Hn1. reflexivity.
Qed.

Lemma scoreBloodPressure_cases (bp : option JsString) :
  scoreBloodPressure bp = invalidBP \/
  exists systolic diastolic,
    scoreBloodPressure bp =
    BP.mk (Z.max (systolicScore systolic) (diastolicScore systolic diastolic))
      true
      (categoryOf
         (Z.max (systolicScore systolic) (diastolicScore systolic diastolic))).
Proof.
  destruct bp as [s|]; [|left; reflexivity]. unfold scoreBloodPressure.
  destruct (isEmpty s || isEmpty (trim s)); [left; reflexivity|].
  destruct (negb _); [left; reflexivity|].
  destruct (isEmpty _ || isEmpty _); [left; reflexivity|].
  destruct (isNaN _ || isNaN _); [left; reflexivity|].
  right. eexists _, _. reflexivity.
Qed.

(** C1. [scoreBloodPressure] on every input: an absent, empty or blank
    value, a string that does not split at '/' into exactly two parts,
    and a string with an empty or non-numeric part give score 0, invalid,
    category "Invalid"; a string whose two parts parse as numbers gives a
    valid result whose score is the larger of the systolic band and the
    diastolic band, labelled by the score; "120/75" scores 2 "Elevated"
    and "135/95" scores 4 "Stage 2". *)
Theorem scoreBloodPressure_spec :
  scoreBloodPressure None = BP.mk 0 false Invalid
  /\ (forall s, isBlank s = true ->
        scoreBloodPressure (Some s) = BP.mk 0 false Invalid)
  /\ (forall s, List.length (split 47 s) <> 2%nat ->
        scoreBloodPressure (Some s) = BP.mk 0 false Invalid)
  /\ (forall s part, In part (split 47 s) ->
        trim part = [] \/ isNaN (Number (trim part)) = true ->
        scoreBloodPressure (Some s) = BP.mk 0 false Invalid)
  /\ (forall s p0 p1,
        split 47 s = [p0; p1] ->
        trim p0 <> [] -> trim p1 <> [] ->
        isNaN (Number (trim p0)) = false ->
        isNaN (Number (trim p1)) = false ->
        let systolic := Number (trim p0) in
        let diastolic := Number (trim p1) in
        let r := scoreBloodPressure (Some s) in
        BP.isValid r = true
        /\ BP.score r =
           Z.max (systolicBand systolic) (diastolicBand systolic diastolic)
        /\ categoryLabel (BP.category r) = labelOfScore (BP.score r))
  /\ scoreBloodPressure (Some (str "120/75")) = BP.mk 2 true Elevated
  /\ scoreBloodPressure (Some (str "135/95")) = BP.mk 4 true Stage2
  /\ map scoreBloodPressure
       [Some (str "150/"); Some (str "/90"); Some (str ""); None;
        Some (str "abc/80")]
     = repeat (BP.mk 0 false Invalid) 5.
Proof.
  repeat split; try reflexivity.
  - intros s Hs. unfold scoreBloodPressure.
    rewrite (trim_blank s Hs), orb_true_r. reflexivity.
  - intros s Hlen. unfold scoreBloodPressure.
    destruct (isEmpty s || isEmpty (trim s)); [reflexivity|].
    apply Nat.eqb_neq in Hlen. rewrite Hlen. reflexivity.
  - intros s part Hin Hbad. unfold scoreBloodPressure.
    destruct (isEmpty s || isEmpty (trim s)); [reflexivity|].
    destruct (List.length (split 47 s) =? 2)%nat eqn:Hlen; [|reflexivity].
    destruct (split 47 s) as [|a [|b [|c l]]]; try discriminate Hlen.
    cbn [negb nth].
    destruct Hin as [<-|[<-|[]]]; destruct Hbad as [Hb|Hb]; rewrite ?Hb;
      cbn [isEmpty orb]; rewrite ?orb_true_r; try reflexivity;
      destruct (isEmpty _ || isEmpty _); try reflexivity;
      rewrite Hb, ?orb_true_r; reflexivity.
  - rewrite (scoreBloodPressure_two_numbers s p0 p1); try assumption;
      [reflexivity | destruct (trim p0) | destruct (trim p1)];
      try reflexivity; contradiction.
  - rewrite (scoreBloodPressure_two_numbers s p0 p1); try assumption;
      [| destruct (trim p0) | destruct (trim p1)];
      try reflexivity; try contradiction.
    cbn [BP.score]. rewrite systolicScore_band, diastolicScore_band by assumption.
    reflexivity.
  - rewrite (scoreBloodPressure_two_numbers s p0 p1); try assumption;
      [| destruct (trim p0) | destruct (trim p1)];
      try reflexivity; try contradiction.
    apply categoryOf_label.
Qed.

(** The inputs of C1, one for each of its cases. *)
Lemma scoreBloodPressure_spec_witness :
  scoreBloodPressure (Some (str "   ")) = BP.mk 0 false Invalid
  /\ scoreBloodPressure (Some (str "120/80/70")) = BP.mk 0 false Invalid
  /\ scoreBloodPressure (Some (str "abc/80")) = BP.mk 0 false Invalid
  /\ BP.score (scoreBloodPressure (Some (str "135/95"))) =
     Z.max (systolicBand (Number (str "135")))
           (diastolicBand (Number (str "135")) (Number (str "95"))).
Proof.
  destruct scoreBloodPressure_spec as (_ & Hblank & Hparts & Hpart & Hvalid & _).
  split; [apply Hblank; reflexivity|].
  split; [apply Hparts; cbn; lia|].
  split; [apply (Hpart _ (str "abc")); [left; reflexivity | right; reflexivity]|].
  apply (Hvalid (str "135/95") (str "135") (str "95"));
    try reflexivity; discriminate.
Defined.

(** C9. A valid blood-pressure result scores between 1 and 4: the
    systolic band is at least 1, so the diastolic 0 of the fall-through
    case never brings the maximum to 0; the score is 0 exactly when the
    result is invalid, exactly when the category is "Invalid". *)
Theorem scoreBloodPressure_valid_range (bp : option JsString) :
  let r := scoreBloodPressure bp in
  (BP.isValid r = true -> 1 <= BP.score r <= 4)
  /\ (BP.score r = 0 <-> BP.isValid r = false)
  /\ (BP.isValid r = false <-> BP.category r = Invalid)
  /\ (forall systolic diastolic,
        1 <= systolicScore systolic
        /\ (ltb diastolic (int 80) = true -> geb systolic (int 130) = true ->
            diastolicScore systolic diastolic = 0
            /\ 3 <= Z.max (systolicScore systolic)
                          (diastolicScore systolic diastolic))).
Proof.
  cbn zeta. split; [|split; [|split]].
  - destruct (scoreBloodPressure_cases bp) as [->|(s & d & ->)]; cbn.
    + discriminate.
    + intros _. pose proof (systolicScore_range s).
      pose proof (diastolicScore_range s d). lia.
  - destruct (scoreBloodPressure_cases bp) as [->|(s & d & ->)]; cbn.
    + split; reflexivity.
    + pose proof (systolicScore_range s).
      pose proof (diastolicScore_range s d). split; [lia|discriminate].
  - destruct (scoreBloodPressure_cases bp) as [->|(s & d & ->)]; cbn.
    + split; reflexivity.
    + split; [discriminate|]. unfold categoryOf.
      generalize (Z.max (systolicScore s) (diastolicScore s d)). intros m.
      destruct (m =? 4), (m =? 3), (m =? 2); discriminate.
  - intros s d. split; [apply systolicScore_range|].
    intros Hd Hs.
    assert (Hd80 : geb d (int 80) = false).
    { unfold geb, ltb, SFleb, SFltb in *. rewrite (SFcompare_antisym d (int 80)).
      destruct (SFcompare d (int 80)) as [[]|]; try discriminate; reflexivity. }
    assert (Hd90 : geb d (int 90) = false).
    { assert (H : ltb d (int 90) = true)
        by (apply (ltb_trans d (int 80) (int 90) Hd); reflexivity).
      unfold geb, ltb, SFleb, SFltb in *. rewrite (SFcompare_antisym d (int 90)).
      destruct (SFcompare d (int 90)) as [[]|]; try discriminate; reflexivity. }
    assert (Hs130 : ltb s (int 130) = false).
    { unfold geb, ltb, SFleb, SFltb in *. rewrite (SFcompare_antisym s (int 130)) in Hs.
      destruct (SFcompare s (int 130)) as [[]|]; try discriminate; reflexivity. }
    assert (Hs120 : ltb s (int 120) = false).
    { destruct (ltb s (int 120)) eqn:H; [|reflexivity].
      rewrite (ltb_trans s (int 120) (int 130) H eq_refl) in Hs130. discriminate. }
    unfold diastolicScore. rewrite Hd90, Hd80, Hs130, Hs120, andb_false_r.
    split; [reflexivity|]. unfold systolicScore. rewrite Hs.
    destruct (geb s (int 140)); lia.
Qed.

Lemma scoreBloodPressure_valid_range_witness :
  1 <= BP.score (scoreBloodPressure (Some (str "135/70"))) <= 4
  /\ diastolicScore (Number (str "135")) (Number (str "70")) = 0.
Proof.
  split.
  - apply (proj1 (scoreBloodPressure_valid_range (Some (str "135/70")))).
    reflexivity.
  - apply (proj2 (proj2 (proj2 (proj2
             (scoreBloodPressure_valid_range None)))
             (Number (str "135")) (Number (str "70")))); reflexivity.
Defined.

(** ** Temperature and age *)

Lemma Number_blank (s : JsString) : isBlank s = true -> Number s = S754_zero false.
Proof. intros H. unfold Number. rewrite (trim_blank s H). reflexivity. Qed.

Lemma scoreTemperature_range (v : JsValue) :
  0 <= Field.score (scoreTemperature v) <= 2.
Proof.
  unfold scoreTemperature. destruct (toNumber v) as [t|]; [|cbn; lia].
  destruct (isNaN t), (geb t lit_101_0), (geb t lit_99_6); cbn; lia.
Qed.

Lemma scoreAge_range (v : JsValue) : 0 <= Field.score (scoreAge v) <= 2.
Proof.
  unfold scoreAge. destruct (toNumber v) as [t|]; [|cbn; lia].
  destruct (isNaN t), (gtb t (int 65)), (geb t (int 40)); cbn; lia.
Qed.

Lemma scoreBloodPressure_range (bp : option JsString) :
  0 <= BP.score (scoreBloodPressure bp) <= 4.
Proof.
  destruct (scoreBloodPressure_cases bp) as [->|(s & d & ->)]; cbn; [lia|].
  pose proof (systolicScore_range s). pose proof (diastolicScore_range s d). lia.
Qed.

(** C4. [scoreTemperature] on every input: null, undefined and a string
    that converts to NaN give score 0, invalid; a numeric reading is
    valid and scores 2 from 101.0 up, 1 in [99.6, 101.0) and 0 up to
    99.5; so 99.5 gives 0 valid, 99.6 gives 1 valid, 101.0 gives 2 valid
    and null gives 0 invalid, and the normal reading differs from the
    absent one in the validity flag only. *)
Theorem scoreTemperature_spec :
  scoreTemperature VNull = Field.mk 0 false
  /\ scoreTemperature VUndefined = Field.mk 0 false
  /\ (forall s, isNaN (Number s) = true ->
        scoreTemperature (VString s) = Field.mk 0 false)
  /\ (forall v t, toNumber v = Some t -> isNaN t = false ->
        Field.isValid (scoreTemperature v) = true
        /\ (geb t lit_101_0 = true -> Field.score (scoreTemperature v) = 2)
        /\ (geb t lit_99_6 = true -> ltb t lit_101_0 = true ->
            Field.score (scoreTemperature v) = 1)
        /\ (leb t lit_99_5 = true -> Field.score (scoreTemperature v) = 0))
  /\ map scoreTemperature
       [VNumber lit_99_5; VNumber lit_99_6; VNumber lit_101_0; VNull]
     = [Field.mk 0 true; Field.mk 1 true; Field.mk 2 true; Field.mk 0 false]
  /\ map scoreTemperature
       [VString (str "99.5"); VString (str "99.6"); VString (str "101.0")]
     = [Field.mk 0 true; Field.mk 1 true; Field.mk 2 true]
  /\ Field.score (scoreTemperature (VNumber lit_99_5))
     = Field.score (scoreTemperature VNull)
  /\ Field.isValid (scoreTemperature (VNumber lit_99_5))
     <> Field.isValid (scoreTemperature VNull).
Proof.
  split; [reflexivity|]. split; [reflexivity|].
  split; [intros s H; unfold scoreTemperature; cbn; rewrite H; reflexivity|].
  split; [|repeat split; try reflexivity; discriminate].
  intros v t Hv Ht. unfold scoreTemperature. rewrite Hv, Ht.
  repeat split.
  - destruct (geb t lit_101_0), (geb t lit_99_6); reflexivity.
  - intros ->. reflexivity.
  - intros H996 H101. rewrite (geb_negb_ltb t lit_101_0 Ht eq_refl), H101, H996.
    reflexivity.
  - intros H995.
    assert (H996 : ltb t lit_99_6 = true)
      by (apply (leb_ltb_trans t lit_99_5 lit_99_6 H995); reflexivity).
    assert (H101 : ltb t lit_101_0 = true)
      by (apply (ltb_trans t lit_99_6 lit_101_0 H996); reflexivity).
    rewrite (geb_negb_ltb t lit_101_0 Ht eq_refl), H101.
    rewrite (geb_negb_ltb t lit_99_6 Ht eq_refl), H996. reflexivity.
Qed.

Lemma scoreTemperature_spec_witness :
  scoreTemperature (VString (str "fever")) = Field.mk 0 false
  /\ Field.score (scoreTemperature (VString (str "102.3"))) = 2
  /\ Field.score (scoreTemperature (VString (str "100.9"))) = 1
  /\ Field.score (scoreTemperature (VNumber (int 98))) = 0.
Proof.
  destruct scoreTemperature_spec as (_ & _ & Hnan & Hnum & _).
  split; [apply Hnan; reflexivity|].
  split; [apply (Hnum _ (Number (str "102.3"))); reflexivity|].
  split; [apply (Hnum _ (Number (str "100.9"))); reflexivity|].
  apply (Hnum _ (int 98)); reflexivity.
Defined.

(** ** The risk assessor *)

(** C5. [assessPatientRisk] on every record: the total is the sum of the
    three field scores as returned (an invalid field adds its score, no
    penalty) and is not negative; [isHighRisk] says the total is 4 or
    more; [hasDataQualityIssues] says one of the three results is
    invalid; [hasFever] says the temperature result is valid and the
    converted temperature is 99.6 or more; the record's own fields are
    carried over. *)
Theorem assessPatientRisk_spec (patient : Patient) :
  let r := assessPatientRisk patient in
  let bp := scoreBloodPressure (blood_pressure patient) in
  let temp := scoreTemperature (temperature patient) in
  let ageR := scoreAge (age patient) in
  Risk.bloodPressure (riskScore r) = BP.score bp
  /\ Risk.temperature (riskScore r) = Field.score temp
  /\ Risk.age (riskScore r) = Field.score ageR
  /\ Risk.total (riskScore r)
     = Risk.bloodPressure (riskScore r) + Risk.temperature (riskScore r)
       + Risk.age (riskScore r)
  /\ 0 <= Risk.total (riskScore r)
  /\ isHighRisk r = (4 <=? Risk.total (riskScore r))
  /\ hasDataQualityIssues r
     = negb (BP.isValid bp && Field.isValid temp && Field.isValid ageR)
  /\ hasFever r
     = Field.isValid temp && geb (NumberOfValue (temperature patient)) lit_99_6
  /\ mkPatient (r_patient_id r) (r_name r) (r_age r) (r_gender r)
       (r_blood_pressure r) (r_temperature r) (r_visit_date r)
       (r_diagnosis r) (r_medications r) = patient.
Proof.
  cbn zeta. unfold assessPatientRisk; cbn.
  repeat split.
  - pose proof (scoreBloodPressure_range (blood_pressure patient)).
    pose proof (scoreTemperature_range (temperature patient)).
    pose proof (scoreAge_range (age patient)). lia.
  - apply Z.geb_leb.
  - rewrite !negb_andb. reflexivity.
  - destruct (temperature patient); cbn; try reflexivity.
    + rewrite andb_true_r. reflexivity.
    + rewrite andb_true_r. reflexivity.
  - destruct patient; reflexivity.
Qed.

(** C10. A temperature that is an empty or white-space-only string
    converts to 0 and is scored 0 as a valid reading, and an empty-string
    age is scored 1 as a valid one; unlike an absent value, neither
    raises the data-quality flag of the assessment. *)
Theorem empty_string_vital_is_valid :
  (forall s, isBlank s = true ->
     Number s = S754_zero false
     /\ scoreTemperature (VString s) = Field.mk 0 true)
  /\ scoreAge (VString []) = Field.mk 1 true
  /\ (forall patient s,
        isBlank s = true ->
        temperature patient = VString s -> age patient = VString [] ->
        hasDataQualityIssues (assessPatientRisk patient)
        = negb (BP.isValid (scoreBloodPressure (blood_pressure patient))))
  /\ (forall patient,
        isAbsent (temperature patient) = true
        \/ isAbsent (age patient) = true ->
        hasDataQualityIssues (assessPatientRisk patient) = true).
Proof.
  assert (Htemp : forall s, isBlank s = true ->
            scoreTemperature (VString s) = Field.mk 0 true).
  { intros s H. unfold scoreTemperature; cbn. rewrite (Number_blank s H).
    reflexivity. }
  split; [intros s H; split; [apply Number_blank, H | apply Htemp, H]|].
  split; [reflexivity|]. split.
  - intros patient s Hs Ht Ha. unfold assessPatientRisk; cbn.
    rewrite Ht, Ha, (Htemp s Hs). cbn. rewrite !orb_false_r. reflexivity.
  - intros patient [H|H]; unfold assessPatientRisk; cbn.
    + destruct (temperature patient); try discriminate H; cbn;
        rewrite orb_true_r; reflexivity.
    + destruct (age patient); try discriminate H; cbn;
        rewrite orb_true_r; reflexivity.
Qed.

Lemma empty_string_vital_is_valid_witness :
  scoreTemperature (VString (str "  ")) = Field.mk 0 true
  /\ hasDataQualityIssues
       (assessPatientRisk
          (mkPatient "P1" "A" (VString []) "F" (Some (str "120/80"))
             (VString (str " ")) "" "" "")) = false
  /\ hasDataQualityIssues
       (assessPatientRisk
          (mkPatient "P2" "B" (VString []) "F" (Some (str "120/80"))
             VNull "" "" "")) = true.
Proof.
  destruct empty_string_vital_is_valid as (Hblank & _ & Hflag & Habsent).
  split; [apply (Hblank (str "  ")); reflexivity|].
  split.
  - refine (eq_trans
              (Hflag (mkPatient "P1" "A" (VString []) "F" (Some (str "120/80"))
                        (VString (str " ")) "" "" "")
                     (str " ") eq_refl eq_refl eq_refl) _).
    reflexivity.
  - apply Habsent. left; reflexivity.
Defined.

(** ** The retry loop, one iteration at a time *)

Section RetryLoopFacts.

Context {A : Type} (target : Target) (tryBlock : Z -> M (LoopStep A)).

Lemma retryLoop_return remaining attempt lastError w a w' :
  tryBlock attempt w = (Ok (Return a), w') ->
  retryLoop target tryBlock (S remaining) attempt lastError w = (Ok a, w').
Proof.
  intros H. cbn [retryLoop]. unfold bind, attempted, tryCatch, bind.
  rewrite H. reflexivity.
Qed.

Lemma retryLoop_continue remaining attempt lastError w w' :
  tryBlock attempt w = (Ok Continue, w') ->
  retryLoop target tryBlock (S remaining) attempt lastError w
  = retryLoop target tryBlock remaining (attempt + 1) lastError w'.
Proof.
  intros H. cbn [retryLoop]. unfold bind, attempted, tryCatch, bind.
  rewrite H. reflexivity.
Qed.

Lemma retryLoop_throw remaining attempt lastError w e w' :
  tryBlock attempt w = (Throw e, w') ->
  retryLoop target tryBlock (S remaining) attempt lastError w
  = if attempt =? MAX_RETRIES - 1 then (Throw e, w')
    else retryLoop target tryBlock remaining (attempt + 1) (Some e)
           (afterCatch target attempt w').
Proof.
  intros H. cbn [retryLoop]. unfold bind, attempted, tryCatch, bind.
  rewrite H. destruct (attempt =? MAX_RETRIES - 1); [reflexivity|].
  unfold afterCatch, console, sleep, emit. cbn. rewrite <- app_assoc.
  reflexivity.
Qed.

Lemma afterLoop_throws (lastError : option ApiError) (w : World) :
  exists e, @afterLoop A target lastError w = (Throw e, w).
Proof. destruct lastError, target; eexists; reflexivity. Qed.

(** The loop sends at most one request per iteration. *)
Lemma retryLoop_requests_bound :
  (forall attempt w, (sent (snd (tryBlock attempt w)) <= S (sent w))%nat) ->
  forall remaining attempt lastError w,
    (sent (snd (retryLoop target tryBlock remaining attempt lastError w))
     <= sent w + remaining)%nat.
Proof.
  intros Hblock. induction remaining as [|remaining IH]; intros attempt lastError w.
  - destruct (afterLoop_throws lastError w) as [e He]. cbn [retryLoop].
    rewrite He. cbn. lia.
  - pose proof (Hblock attempt w) as Hw.
    destruct (tryBlock attempt w) as [[[a|]|e] w'] eqn:Hstep; cbn in Hw.
    + rewrite (retryLoop_return _ _ _ _ _ _ Hstep). cbn. lia.
    + rewrite (retryLoop_continue _ _ _ _ _ Hstep).
      specialize (IH (attempt + 1) lastError w'). lia.
    + rewrite (retryLoop_throw _ _ _ _ _ _ Hstep).
      destruct (attempt =? MAX_RETRIES - 1); [cbn; lia|].
      specialize (IH (attempt + 1) (Some e) (afterCatch target attempt w')).
      cbn in IH. lia.
Qed.

(** When every remaining iteration ends in [continue], the loop runs
    out and the code after it throws. *)
Lemma retryLoop_exhausted :
  forall remaining attempt lastError w,
    (forall k w', (k < remaining)%nat -> sent w' = (sent w + k)%nat ->
       exists w'', tryBlock (attempt + Z.of_nat k) w' = (Ok Continue, w'')
                   /\ sent w'' = S (sent w')) ->
    exists w',
      retryLoop target tryBlock remaining attempt lastError w
      = afterLoop target lastError w'
      /\ sent w' = (sent w + remaining)%nat.
Proof.
  induction remaining as [|remaining IH]; intros attempt lastError w Hall.
  - exists w. split; [reflexivity|lia].
  - destruct (Hall 0%nat w) as (w1 & Hstep & Hsent); [lia|lia|].
    rewrite Z.add_0_r in Hstep.
    rewrite (retryLoop_continue _ _ _ _ _ Hstep).
    destruct (IH (attempt + 1) lastError w1) as (w' & Hrun & Hsent').
    + intros k w2 Hk Hw2.
      destruct (Hall (S k) w2) as (w3 & Hstep3 & Hsent3); [lia|lia|].
      exists w3. split; [|exact Hsent3].
      rewrite <- Hstep3. f_equal. lia.
    + exists w'. split; [exact Hrun|lia].
Qed.

End RetryLoopFacts.

(** ** One attempt of a page fetch and of a submission *)

(** The delay the [try] block sleeps on a retryable status. *)
Lemma retryLater_run {T A} (target : Target) (attempt : Z)
    (response : Response T) (w : World) :
  @retryLater T A target attempt response w
  = let delay :=
      getExponentialBackoff attempt
        (if status response =? 429 then 2000 else 1000) in
    (Ok Continue,
     mkWorld (sent w)
       (trace w ++ [EvConsole (LogRetryable (status response) target
                                 (attempt + 1) delay);
                    EvSleep delay])).
Proof.
  unfold retryLater, bind, console, sleep, emit, ret. cbn.
  rewrite <- app_assoc. destruct (status response =? 429); reflexivity.
Qed.

Section PageFacts.

Variable server : nat -> Request -> FetchOutcome PatientsResponse.
Variable now : string.
Variables apiKey baseUrl : string.

Local Abbreviation fetchPage := (fetchPatientsPage server now apiKey baseUrl).
Local Abbreviation tryPage := (pageTryBlock server now apiKey baseUrl).

Lemma pageTryBlock_retryable page limit attempt w response :
  server (sent w) (GetPatients baseUrl apiKey page limit) = Reply response ->
  isRetryableError (status response) = true ->
  exists w',
    tryPage page limit attempt w = (Ok Continue, w')
    /\ sent w' = S (sent w)
    /\ trace w'
       = trace w
         ++ [EvFetch (GetPatients baseUrl apiKey page limit);
             EvConsole
               (LogRetryable (status response) (PageTarget page) (attempt + 1)
                  (getExponentialBackoff attempt
                     (if status response =? 429 then 2000 else 1000)));
             EvSleep
               (getExponentialBackoff attempt
                  (if status response =? 429 then 2000 else 1000))].
Proof.
  intros Hreply Hretry. unfold pageTryBlock, bind, fetch.
  rewrite Hreply, Hretry, retryLater_run. cbn.
  eexists. split; [reflexivity|]. cbn. rewrite <- app_assoc.
  split; reflexivity.
Qed.

Lemma pageTryBlock_success page limit attempt w response body :
  server (sent w) (GetPatients baseUrl apiKey page limit) = Reply response ->
  successBody response = Some body ->
  exists w',
    tryPage page limit attempt w = (Ok (Return (delivered now page limit body)), w')
    /\ sent w' = S (sent w)
    /\ io (trace w')
       = io (trace w) ++ [EvFetch (GetPatients baseUrl apiKey page limit)]
    /\ trace w'
       = trace w
         ++ EvFetch (GetPatients baseUrl apiKey page limit)
            :: match data body with
               | Some _ => []
               | None => [EvConsole (WarnInvalidData page)]
               end.
Proof.
  intros Hreply Hbody. unfold successBody in Hbody.
  unfold pageTryBlock, bind, fetch, parseJson, delivered.
  rewrite Hreply.
  destruct (isRetryableError (status response)); [discriminate|].
  destruct (negb (ok response)); [discriminate|].
  destruct (json response) as [[|b]|]; try discriminate.
  injection Hbody as ->. cbn.
  destruct (data body); cbn; eexists; (split; [reflexivity|]); cbn;
    unfold io; rewrite ?filter_app, <- ?app_assoc; cbn; rewrite ?app_nil_r;
    repeat split; reflexivity.
Qed.

Lemma fetchPatientsPage_success page limit w response body :
  server (sent w) (GetPatients baseUrl apiKey page limit) = Reply response ->
  successBody response = Some body ->
  exists w',
    fetchPage page limit w = (Ok (delivered now page limit body), w')
    /\ sent w' = S (sent w)
    /\ io (trace w')
       = io (trace w) ++ [EvFetch (GetPatients baseUrl apiKey page limit)].
Proof.
  intros Hreply Hbody.
  destruct (pageTryBlock_success page limit 0 w response body Hreply Hbody)
    as (w' & Hstep & Hsent & Hio & _).
  exists w'. split; [|split; assumption].
  unfold fetchPatientsPage.
  change (Z.to_nat MAX_RETRIES) with 5%nat.
  apply retryLoop_return. exact Hstep.
Qed.

Lemma pageTryBlock_one_request page limit attempt w :
  (sent (snd (tryPage page limit attempt w)) <= S (sent w))%nat.
Proof.
  unfold pageTryBlock, bind, fetch, parseJson.
  destruct (server _ _) as [reason|response]; cbn; [lia|].
  destruct (isRetryableError (status response));
    [rewrite retryLater_run; cbn; lia|].
  destruct (negb (ok response)); cbn; [lia|].
  destruct (json response) as [[|body]|]; cbn; try lia.
  destruct (data body); cbn; lia.
Qed.

Lemma pushAll_delivered allPatients page limit body :
  pushAll allPatients (data (delivered now page limit body))
  = allPatients ++ recordsOf body.
Proof.
  unfold delivered, recordsOf, pushAll.
  destruct (data body) as [l|] eqn:Hdata; cbn.
  - rewrite Hdata. destruct l; cbn; [rewrite app_nil_r|]; reflexivity.
  - rewrite app_nil_r. reflexivity.
Qed.

Lemma io_snoc_progress (t : list Event) (p : FetchProgress) :
  io (t ++ [EvProgress p]) = io t.
Proof. unfold io. rewrite filter_app. cbn. apply app_nil_r. Qed.

Lemma io_snoc_sleep (t : list Event) (ms : Z) :
  io (t ++ [EvSleep ms]) = io t ++ [EvSleep ms].
Proof. unfold io. rewrite filter_app. reflexivity. Qed.

(** The loop over the remaining pages, when each of them is answered by
    a successful JSON object. *)
Lemma fetchRemainingPages_run
    (replies : Z -> Response PatientsResponse) (bodies : Z -> PatientsResponse)
    (totalPages : Z) :
  forall remaining currentPage allPatients w,
    (forall n p, In p (pageRange currentPage remaining) ->
       server n (GetPatients baseUrl apiKey p 5) = Reply (replies p)
       /\ successBody (replies p) = Some (bodies p)) ->
    exists w',
      fetchRemainingPages server now apiKey baseUrl remaining currentPage
        totalPages allPatients w
      = (Ok (allPatients
             ++ flat_map (fun p => recordsOf (bodies p))
                  (pageRange currentPage remaining)), w')
      /\ sent w' = (sent w + remaining)%nat
      /\ io (trace w')
         = io (trace w)
           ++ flat_map
                (fun p => [EvSleep RATE_LIMIT_DELAY;
                           EvFetch (GetPatients baseUrl apiKey p 5)])
                (pageRange currentPage remaining).
Proof.
  induction remaining as [|remaining IH]; intros currentPage allPatients w Hok.
  - exists w. cbn. rewrite !app_nil_r. repeat split. lia.
  - cbn [fetchRemainingPages pageRange flat_map].
    destruct (Hok (sent w) currentPage (or_introl eq_refl)) as [Hreply Hbody].
    unfold bind at 1 2 3. unfold sleep, onProgress, emit at 1 2.
    cbv beta iota. unfold reportingErrors, tryCatch.
    match goal with
    | |- context [fetchPatientsPage _ _ _ _ _ _ ?w1] =>
        destruct (fetchPatientsPage_success currentPage 5 w1 _ _ Hreply Hbody)
          as (w2 & Hrun & Hsent2 & Hio2)
    end.
    rewrite Hrun. cbv beta iota. unfold bind at 1. unfold emit at 1.
    cbv beta iota. rewrite pushAll_delivered.
    match goal with
    | |- context [fetchRemainingPages _ _ _ _ _ _ _ ?all ?w3] =>
        destruct (IH (currentPage + 1) all w3) as (w' & Hrest & Hsent' & Hio')
    end.
    { intros n p Hp. apply Hok. right. exact Hp. }
    exists w'. rewrite Hrest, <- app_assoc. split; [reflexivity|].
    cbn [sent trace] in *. split; [lia|].
    rewrite Hio', io_snoc_progress, Hio2, io_snoc_progress, io_snoc_sleep.
    rewrite <- !app_assoc. reflexivity.
Qed.

Lemma pageRange_length (n : nat) : forall first, List.length (pageRange first n) = n.
Proof. induction n as [|n IH]; intros first; cbn; [|rewrite IH]; reflexivity. Qed.

Lemma pageRange_bounds (n : nat) :
  forall first p, In p (pageRange first n) -> first <= p < first + Z.of_nat n.
Proof.
  induction n as [|n IH]; intros first p Hp; [destruct Hp|].
  destruct Hp as [<-|Hp]; [lia|]. apply IH in Hp. lia.
Qed.

(** The page numbers a run visits when the first page declares
    [totalPages]. *)
Lemma pageRange_from_one (totalPages : Z) :
  1 <= totalPages ->
  pageRange 1 (Z.to_nat totalPages) = 1 :: pageRange 2 (Z.to_nat (totalPages - 1)).
Proof.
  intros H. replace (Z.to_nat totalPages) with (S (Z.to_nat (totalPages - 1))) by lia.
  reflexivity.
Qed.

(** The whole run, when every page it visits is answered by a successful
    JSON object: it ends normally with the records of the pages in page
    order, after one request per page. *)
Lemma fetchAllPatients_run
    (replies : Z -> Response PatientsResponse) (bodies : Z -> PatientsResponse) :
  let totalPages := totalPagesOf (delivered now 1 5 (bodies 1)) in
  let pages := 1 :: pageRange 2 (Z.to_nat (totalPages - 1)) in
  (forall n p, In p pages ->
     server n (GetPatients baseUrl apiKey p 5) = Reply (replies p)
     /\ successBody (replies p) = Some (bodies p)) ->
  forall w,
  exists w',
    fetchAllPatients server now apiKey baseUrl w
    = (Ok (flat_map (fun p => recordsOf (bodies p)) pages), w')
    /\ sent w' = (sent w + List.length pages)%nat
    /\ io (trace w')
       = io (trace w)
         ++ EvFetch (GetPatients baseUrl apiKey 1 5)
            :: flat_map
                 (fun p => [EvSleep RATE_LIMIT_DELAY;
                            EvFetch (GetPatients baseUrl apiKey p 5)])
                 (pageRange 2 (Z.to_nat (totalPages - 1))).
Proof.
  intros totalPages pages Hok w.
  destruct (Hok (sent w) 1 (or_introl eq_refl)) as [Hreply Hbody].
  unfold fetchAllPatients. unfold bind at 1 2. unfold onProgress, emit at 1.
  cbv beta iota. unfold reportingErrors, tryCatch.
  match goal with
  | |- context [fetchPatientsPage _ _ _ _ _ _ ?w1] =>
      destruct (fetchPatientsPage_success 1 5 w1 _ _ Hreply Hbody)
        as (w2 & Hrun & Hsent2 & Hio2)
  end.
  rewrite Hrun. cbv beta iota. unfold bind at 1 2. unfold emit at 1.
  cbv beta iota. rewrite pushAll_delivered. fold totalPages.
  match goal with
  | |- context [fetchRemainingPages _ _ _ _ _ _ _ ?all ?w3] =>
      destruct (fetchRemainingPages_run replies bodies totalPages
                  (Z.to_nat (totalPages - 1)) 2 all w3)
        as (w' & Hrest & Hsent' & Hio')
  end.
  { intros n p Hp. apply Hok. right. exact Hp. }
  rewrite Hrest. cbv beta iota. unfold bind, emit, ret. cbv beta iota.
  eexists. split; [reflexivity|]. cbn [sent trace] in *.
  split.
  - unfold pages. cbn [List.length]. rewrite pageRange_length. lia.
  - rewrite io_snoc_progress, Hio', io_snoc_progress, Hio2, io_snoc_progress.
    rewrite <- app_assoc. reflexivity.
Qed.

End PageFacts.

Section SubmissionFacts.

Variable SubmissionResponse : Type.
Variable server : nat -> Request -> FetchOutcome SubmissionResponse.
Variables apiKey baseUrl : string.

Local Abbreviation trySubmit := (submitTryBlock SubmissionResponse server apiKey baseUrl).

Lemma submitTryBlock_retryable results attempt w response :
  server (sent w) (PostAssessment baseUrl apiKey results) = Reply response ->
  isRetryableError (status response) = true ->
  exists w',
    trySubmit results attempt w = (Ok Continue, w')
    /\ sent w' = S (sent w).
Proof.
  intros Hreply Hretry. unfold submitTryBlock, bind, fetch.
  rewrite Hreply, Hretry, retryLater_run. cbn.
  eexists. split; reflexivity.
Qed.

Lemma submitTryBlock_one_request results attempt w :
  (sent (snd (trySubmit results attempt w)) <= S (sent w))%nat.
Proof.
  unfold submitTryBlock, bind, fetch, parseJson.
  destruct (server _ _) as [reason|response]; cbn; [lia|].
  destruct (isRetryableError (status response));
    [rewrite retryLater_run; cbn; lia|].
  destruct (negb (ok response)); cbn; [lia|].
  destruct (json response); cbn; lia.
Qed.

End SubmissionFacts.

(** ** Exhausted retries *)

(** C3, as the code has it. When each of the 5 attempts of a page fetch
    or of a submission meets a retryable status (429, 500 or 503), the
    call sends exactly 5 requests and then raises the fixed error
    "Failed to fetch page P after 5 attempts" (for a submission, "Failed
    to submit assessment after 5 attempts"), which reports no status. *)
Theorem retries_exhausted :
  (forall server now apiKey baseUrl page limit w,
     (forall k, (k < 5)%nat ->
        exists response,
          server (sent w + k)%nat (GetPatients baseUrl apiKey page limit)
          = Reply response
          /\ isRetryableError (status response) = true) ->
     exists w',
       fetchPatientsPage server now apiKey baseUrl page limit w
       = (Throw (ErrFailedPage page 5), w')
       /\ sent w' = (sent w + 5)%nat
       /\ errorStatus (ErrFailedPage page 5) = None)
  /\ (forall T server apiKey baseUrl results w,
        (forall k, (k < 5)%nat ->
           exists response,
             server (sent w + k)%nat (PostAssessment baseUrl apiKey results)
             = Reply response
             /\ isRetryableError (status response) = true) ->
        exists w',
          submitAssessment T server apiKey baseUrl results w
          = (Throw (ErrFailedSubmit 5), w')
          /\ sent w' = (sent w + 5)%nat
          /\ errorStatus (ErrFailedSubmit 5) = None).
Proof.
  split.
  - intros server now apiKey baseUrl page limit w Hall.
    unfold fetchPatientsPage. change (Z.to_nat MAX_RETRIES) with 5%nat.
    destruct (retryLoop_exhausted (PageTarget page)
                (pageTryBlock server now apiKey baseUrl page limit)
                5 0 None w) as (w' & Hrun & Hsent).
    + intros k w1 Hk Hw1. destruct (Hall k Hk) as (response & Hreply & Hretry).
      rewrite <- Hw1 in Hreply.
      destruct (pageTryBlock_retryable server now apiKey baseUrl page limit
                  (0 + Z.of_nat k) w1 response Hreply Hretry)
        as (w2 & Hstep & Hsent2 & _).
      exists w2. split; assumption.
    + exists w'. rewrite Hrun. repeat split. exact Hsent.
  - intros T server apiKey baseUrl results w Hall.
    unfold submitAssessment. change (Z.to_nat MAX_RETRIES) with 5%nat.
    destruct (retryLoop_exhausted SubmissionTarget
                (submitTryBlock T server apiKey baseUrl results)
                5 0 None w) as (w' & Hrun & Hsent).
    + intros k w1 Hk Hw1. destruct (Hall k Hk) as (response & Hreply & Hretry).
      rewrite <- Hw1 in Hreply.
      apply (submitTryBlock_retryable T server apiKey baseUrl results
               (0 + Z.of_nat k) w1 response Hreply Hretry).
    + exists w'. rewrite Hrun. repeat split. exact Hsent.
Qed.

Lemma retries_exhausted_witness :
  exists w',
    fetchPatientsPage (alwaysStatus 503 "Service Unavailable"%string)
      sampleNow sampleKey sampleUrl 3 5 initial
    = (Throw (ErrFailedPage 3 5), w')
    /\ sent w' = 5%nat
    /\ errorStatus (ErrFailedPage 3 5) = None.
Proof.
  apply (proj1 retries_exhausted
           (alwaysStatus 503 "Service Unavailable"%string)
           sampleNow sampleKey sampleUrl 3 5 initial).
  intros k _. exists (statusReply 503 "Service Unavailable"%string).
  split; reflexivity.
Defined.

(** C3, as it is worded, fails: after five answers of status 429 the
    error that is raised carries no cause, neither the status 429 nor
    anything else observed. *)
Lemma exhausted_error_carries_no_cause :
  let run :=
    fetchPatientsPage (alwaysStatus 429 "Too Many Requests"%string)
      sampleNow sampleKey sampleUrl 1 5 initial in
  sent (snd run) = 5%nat
  /\ fst run = Throw (ErrFailedPage 1 5)
  /\ ~ (exists e, fst run = Throw e /\ errorStatus e = Some 429).
Proof.
  cbv zeta. split; [reflexivity|]. split; [reflexivity|].
  intros (e & He & Hstatus). vm_compute in He. injection He as <-.
  discriminate Hstatus.
Qed.

(** ** Errors that are not retryable *)

(** C2 does not hold of the code: a 404 is thrown inside the [try] block
    and caught by the [catch] block of the same iteration, which retries.
    A page fetch that meets 404 once and a well-formed page next returns
    the page after a sleep of 1000 ms; against a server that always
    answers 404 it sends 5 requests, sleeping 1000, 2000, 4000 and
    8000 ms, before it raises "HTTP 404: Not Found"; a submission does
    the same, and so does a 200 whose body is not JSON. *)
Theorem non_retryable_status_is_retried :
  (let run :=
     fetchPatientsPage (failingFirst 1 404 "Not Found"%string (pageReply 1 1))
       sampleNow sampleKey sampleUrl 1 5 initial in
   (exists body, fst run = Ok body)
   /\ sent (snd run) = 2%nat
   /\ sleeps (trace (snd run)) = [1000])
  /\ (let run :=
        fetchPatientsPage (alwaysStatus 404 "Not Found"%string)
          sampleNow sampleKey sampleUrl 1 5 initial in
      fst run = Throw (ErrHttp 404 "Not Found"%string)
      /\ sent (snd run) = 5%nat
      /\ sleeps (trace (snd run)) = [1000; 2000; 4000; 8000])
  /\ (let run :=
        submitAssessment unit (alwaysStatus 400 "Bad Request"%string)
          sampleKey sampleUrl (mkAssessmentResults [] [] []) initial in
      fst run = Throw (ErrHttp 400 "<html>error</html>"%string)
      /\ sent (snd run) = 5%nat
      /\ sleeps (trace (snd run)) = [1000; 2000; 4000; 8000])
  /\ (let run :=
        fetchPatientsPage (alwaysStatus 200 "OK"%string)
          sampleNow sampleKey sampleUrl 1 5 initial in
      fst run = Throw ErrJson
      /\ sent (snd run) = 5%nat
      /\ sleeps (trace (snd run)) = [1000; 2000; 4000; 8000]).
Proof.
  cbv zeta. repeat split; try reflexivity.
  eexists. reflexivity.
Qed.

(** ** Paginated retrieval *)

Lemma backoff_at_least_base (attempt base : Z) :
  0 <= attempt -> 0 <= base -> base <= getExponentialBackoff attempt base.
Proof.
  intros Ha Hb. unfold getExponentialBackoff.
  assert (0 < 2 ^ attempt) by (apply Z.pow_pos_nonneg; lia).
  nia.
Qed.

(** C6. When the first page declares [totalPages = N] with [N >= 1] and
    every page is answered by a successful response with well-formed
    data, [fetchAllPatients] ends normally after exactly [N] requests,
    for the pages 1 to N in increasing order, each page after the first
    right after a sleep of the inter-page delay, and it returns the
    records of the pages concatenated in page order; the inter-page delay
    (500 ms) is shorter than every backoff delay. *)
Theorem fetchAllPatients_pages
    (server : nat -> Request -> FetchOutcome PatientsResponse)
    (now apiKey baseUrl : string) (N : Z)
    (replies : Z -> Response PatientsResponse)
    (bodies : Z -> PatientsResponse) (records : Z -> list Patient)
    (w : World) :
  1 <= N ->
  (forall n p, 1 <= p <= N ->
     server n (GetPatients baseUrl apiKey p 5) = Reply (replies p)
     /\ successBody (replies p) = Some (bodies p)
     /\ data (bodies p) = Some (records p)) ->
  (exists pg, pagination (bodies 1) = Some pg /\ totalPages pg = N) ->
  exists w',
    fetchAllPatients server now apiKey baseUrl w
    = (Ok (flat_map records (pageRange 1 (Z.to_nat N))), w')
    /\ sent w' = (sent w + Z.to_nat N)%nat
    /\ io (trace w')
       = io (trace w)
         ++ EvFetch (GetPatients baseUrl apiKey 1 5)
            :: flat_map
                 (fun p => [EvSleep RATE_LIMIT_DELAY;
                            EvFetch (GetPatients baseUrl apiKey p 5)])
                 (pageRange 2 (Z.to_nat (N - 1)))
    /\ (forall attempt status, 0 <= attempt ->
          RATE_LIMIT_DELAY
          < getExponentialBackoff attempt
              (if status =? 429 then BASE_DELAY * 2 else BASE_DELAY)).
Proof.
  intros HN Hpages (pg & Hpg & HpgN).
  assert (Htotal : totalPagesOf (delivered now 1 5 (bodies 1)) = N).
  { destruct (Hpages 0%nat 1 ltac:(lia)) as (_ & _ & Hdata).
    unfold delivered, totalPagesOf. rewrite Hdata, Hpg, HpgN.
    destruct (Z.eqb_spec N 0); [lia|reflexivity]. }
  destruct (fetchAllPatients_run server now apiKey baseUrl replies bodies)
    with (w := w) as (w' & Hrun & Hsent & Hio).
  { rewrite Htotal. intros n p Hp.
    assert (1 <= p <= N).
    { destruct Hp as [<-|Hp]; [lia|]. apply pageRange_bounds in Hp. lia. }
    destruct (Hpages n p) as (H1 & H2 & _); [assumption|]. split; assumption. }
  rewrite Htotal in *. exists w'.
  rewrite <- (pageRange_from_one N HN) in Hrun, Hsent.
  split; [|split; [|split]].
  - rewrite Hrun. f_equal. f_equal.
    assert (Heq : forall l, (forall p, In p l -> 1 <= p <= N) ->
              flat_map (fun p => recordsOf (bodies p)) l = flat_map records l).
    { induction l as [|p l IH]; intros Hl; [reflexivity|]. cbn.
      rewrite IH by (intros q Hq; apply Hl; right; exact Hq). f_equal.
      destruct (Hpages 0%nat p) as (_ & _ & Hdata); [apply Hl; left; reflexivity|].
      unfold recordsOf. rewrite Hdata. reflexivity. }
    apply Heq. intros p Hp. apply pageRange_bounds in Hp. lia.
  - rewrite Hsent, pageRange_length. reflexivity.
  - exact Hio.
  - intros attempt status Ha.
    pose proof (backoff_at_least_base attempt
                  (if status =? 429 then BASE_DELAY * 2 else BASE_DELAY) Ha).
    unfold RATE_LIMIT_DELAY, BASE_DELAY in *. destruct (status =? 429); lia.
Qed.

Lemma fetchAllPatients_pages_witness :
  exists w',
    fetchAllPatients (wellFormedPages 3) sampleNow sampleKey sampleUrl initial
    = (Ok (flat_map (fun _ => [samplePatient "DEMO001"]) (pageRange 1 3)), w')
    /\ sent w' = 3%nat.
Proof.
  destruct (fetchAllPatients_pages (wellFormedPages 3) sampleNow sampleKey
              sampleUrl 3 (fun p => pageReply p 3)
              (fun p => mkPatientsResponse
                          (Some [samplePatient "DEMO001"])
                          (Some (mkPagination p 5 1 3 false false))
                          (Some (mkMetadata "2024-01-15T00:00:00Z" "v1.0" "r1")))
              (fun _ => [samplePatient "DEMO001"]) initial)
    as (w' & Hrun & Hsent & _).
  - lia.
  - intros n p _. repeat split.
  - eexists. split; reflexivity.
  - exists w'. split; [exact Hrun | exact Hsent].
Defined.

(** C7. A successful page response that is a JSON object without a
    [data] array makes [fetchPatientsPage] return, at the attempt that
    meets it, an envelope with no records that keeps the pagination of
    the response or, when there is none, carries one with
    [totalPages = 1]; and a run whose pages are all answered by
    successful JSON objects is not aborted by such a page: it visits
    every page and ends normally, the page adding no record. *)
Theorem malformed_envelope_is_recovered
    (server : nat -> Request -> FetchOutcome PatientsResponse)
    (now apiKey baseUrl : string) :
  (forall page limit w response body,
     server (sent w) (GetPatients baseUrl apiKey page limit) = Reply response ->
     successBody response = Some body ->
     data body = None ->
     exists envelope w',
       (forall remaining attempt lastError,
          retryLoop (PageTarget page)
            (pageTryBlock server now apiKey baseUrl page limit)
            (S remaining) attempt lastError w
          = (Ok envelope, w'))
       /\ fetchPatientsPage server now apiKey baseUrl page limit w
          = (Ok envelope, w')
       /\ sent w' = S (sent w)
       /\ data envelope = Some []
       /\ (forall pg, pagination body = Some pg ->
             pagination envelope = Some pg)
       /\ (pagination body = None ->
             exists pg, pagination envelope = Some pg /\ totalPages pg = 1))
  /\ (forall replies bodies w,
        let total := totalPagesOf (delivered now 1 5 (bodies 1)) in
        let pages := 1 :: pageRange 2 (Z.to_nat (total - 1)) in
        (forall n p, In p pages ->
           server n (GetPatients baseUrl apiKey p 5) = Reply (replies p)
           /\ successBody (replies p) = Some (bodies p)) ->
        exists w',
          fetchAllPatients server now apiKey baseUrl w
          = (Ok (flat_map (fun p => recordsOf (bodies p)) pages), w')
          /\ sent w' = (sent w + List.length pages)%nat
          /\ (forall p, data (bodies p) = None -> recordsOf (bodies p) = [])).
Proof.
  split.
  - intros page limit w response body Hreply Hbody Hdata.
    destruct (pageTryBlock_success server now apiKey baseUrl page limit 0 w
                response body Hreply Hbody) as (w' & Hstep & Hsent & _).
    exists (delivered now page limit body), w'.
    assert (Hany : forall attempt,
              pageTryBlock server now apiKey baseUrl page limit attempt w
              = (Ok (Return (delivered now page limit body)), w')).
    { intros attempt. rewrite <- Hstep. unfold pageTryBlock, bind, fetch.
      rewrite Hreply. unfold successBody in Hbody.
      destruct (isRetryableError (status response)); [discriminate|].
      reflexivity. }
    split; [intros; apply retryLoop_return, Hany|].
    split; [apply retryLoop_return, Hany|].
    unfold delivered in *. rewrite Hdata in *. cbn.
    repeat split; try assumption.
    + intros pg ->. reflexivity.
    + intros ->. eexists. split; reflexivity.
  - intros replies bodies w total pages Hok.
    destruct (fetchAllPatients_run server now apiKey baseUrl replies bodies Hok w)
      as (w' & Hrun & Hsent & _).
    exists w'. repeat split; try assumption.
    intros p Hp. unfold recordsOf. rewrite Hp. reflexivity.
Qed.

Lemma malformed_envelope_is_recovered_witness :
  exists w',
    fetchAllPatients threePages sampleNow sampleKey sampleUrl initial
    = (Ok [samplePatient "DEMO001"; samplePatient "DEMO001"], w')
    /\ sent w' = 3%nat.
Proof.
  destruct (proj2 (malformed_envelope_is_recovered threePages sampleNow
                     sampleKey sampleUrl)
              (fun p => if p =? 2
                        then mkResponse 200 "OK" ""
                               (Some (Obj (mkPatientsResponse None None None)))
                        else pageReply p 3)
              (fun p => if p =? 2 then mkPatientsResponse None None None
                        else mkPatientsResponse
                               (Some [samplePatient "DEMO001"])
                               (Some (mkPagination p 5 1 3 false false))
                               (Some (mkMetadata "2024-01-15T00:00:00Z" "v1.0"
                                        "r1")))
              initial)
    as (w' & Hrun & Hsent & _).
  - intros n p _. cbn. destruct (p =? 2); split; reflexivity.
  - exists w'. split; [exact Hrun | exact Hsent].
Defined.

(** ** The backoff schedule *)

Lemma sleeps_app (t u : list Event) : sleeps (t ++ u) = sleeps t ++ sleeps u.
Proof. unfold sleeps. apply flat_map_app. Qed.

(** C8. [getExponentialBackoff attempt baseDelay] is [baseDelay * 2 ^
    attempt] for attempts counted from 0; the retry branch doubles the
    base (2000 ms for 1000 ms) exactly when the status is 429; a page
    request answered 429 three times and then by a well-formed 200
    succeeds at the fourth request after sleeping 2000, 4000 and 8000 ms,
    twice 1000 + 2000 + 4000; and no call sends more than 5 requests. *)
Theorem backoff_schedule :
  (forall attempt baseDelay,
     getExponentialBackoff attempt baseDelay = baseDelay * 2 ^ attempt)
  /\ (forall baseDelay, getExponentialBackoff 0 baseDelay = baseDelay)
  /\ map (fun attempt => getExponentialBackoff attempt BASE_DELAY) [0; 1; 2; 3; 4]
     = [1000; 2000; 4000; 8000; 16000]
  /\ (forall T A target attempt (response : Response T) w,
        sleeps (trace (snd (@retryLater T A target attempt response w)))
        = sleeps (trace w)
          ++ [getExponentialBackoff attempt
                (if status response =? 429 then 2000 else 1000)])
  /\ (forall server now apiKey baseUrl page limit w r0 r1 r2 good body records,
        server (sent w) (GetPatients baseUrl apiKey page limit) = Reply r0 ->
        server (sent w + 1)%nat (GetPatients baseUrl apiKey page limit)
        = Reply r1 ->
        server (sent w + 2)%nat (GetPatients baseUrl apiKey page limit)
        = Reply r2 ->
        server (sent w + 3)%nat (GetPatients baseUrl apiKey page limit)
        = Reply good ->
        status r0 = 429 -> status r1 = 429 -> status r2 = 429 ->
        status good = 200 ->
        json good = Some (Obj body) -> data body = Some records ->
        exists w',
          fetchPatientsPage server now apiKey baseUrl page limit w
          = (Ok body, w')
          /\ sent w' = (sent w + 4)%nat
          /\ sleeps (trace w') = sleeps (trace w) ++ [2000; 4000; 8000])
  /\ 2000 + 4000 + 8000 = 2 * (1000 + 2000 + 4000)
  /\ (forall server now apiKey baseUrl page limit w,
        (sent (snd (fetchPatientsPage server now apiKey baseUrl page limit w))
         <= sent w + 5)%nat)
  /\ (forall T server apiKey baseUrl results w,
        (sent (snd (submitAssessment T server apiKey baseUrl results w))
         <= sent w + 5)%nat).
Proof.
  split; [reflexivity|].
  split; [intros; unfold getExponentialBackoff; lia|].
  split; [reflexivity|].
  split; [intros; rewrite retryLater_run; cbn; rewrite sleeps_app; reflexivity|].
  split; [|split; [reflexivity|split]].
  - intros server now apiKey baseUrl page limit w r0 r1 r2 good body records
      H0 H1 H2 H3 S0 S1 S2 Sgood Hjson Hdata.
    unfold fetchPatientsPage. change (Z.to_nat MAX_RETRIES) with 5%nat.
    destruct (pageTryBlock_retryable server now apiKey baseUrl page limit 0 w r0 H0)
      as (w1 & E1 & N1 & T1); [rewrite S0; reflexivity|].
    rewrite (retryLoop_continue _ _ _ _ _ _ _ E1).
    replace (sent w + 1)%nat with (sent w1) in H1 by lia.
    destruct (pageTryBlock_retryable server now apiKey baseUrl page limit
                (0 + 1) w1 r1 H1)
      as (w2 & E2 & N2 & T2); [rewrite S1; reflexivity|].
    rewrite (retryLoop_continue _ _ _ _ _ _ _ E2).
    replace (sent w + 2)%nat with (sent w2) in H2 by lia.
    destruct (pageTryBlock_retryable server now apiKey baseUrl page limit
                (0 + 1 + 1) w2 r2 H2)
      as (w3 & E3 & N3 & T3); [rewrite S2; reflexivity|].
    rewrite (retryLoop_continue _ _ _ _ _ _ _ E3).
    replace (sent w + 3)%nat with (sent w3) in H3 by lia.
    destruct (pageTryBlock_success server now apiKey baseUrl page limit
                (0 + 1 + 1 + 1) w3 good body H3)
      as (w4 & E4 & N4 & _ & T4).
    { unfold successBody, isRetryableError, ok. rewrite Sgood, Hjson. reflexivity. }
    rewrite (retryLoop_return _ _ _ _ _ _ _ _ E4).
    exists w4. unfold delivered. rewrite Hdata. split; [reflexivity|].
    split; [lia|].
    rewrite T4, T3, T2, T1, S0, S1, S2, Hdata, !sleeps_app. cbn.
    rewrite <- !app_assoc. reflexivity.
  - intros server now apiKey baseUrl page limit w. unfold fetchPatientsPage.
    apply retryLoop_requests_bound. intros attempt w1.
    apply pageTryBlock_one_request.
  - intros T server apiKey baseUrl results w. unfold submitAssessment.
    apply retryLoop_requests_bound. intros attempt w1.
    apply submitTryBlock_one_request.
Qed.

Lemma backoff_schedule_witness :
  exists w',
    fetchPatientsPage (failingFirst 3 429 "Too Many Requests" (pageReply 1 1))
      sampleNow sampleKey sampleUrl 1 5 initial
    = (Ok (mkPatientsResponse
             (Some [samplePatient "DEMO001"])
             (Some (mkPagination 1 5 1 1 false false))
             (Some (mkMetadata "2024-01-15T00:00:00Z" "v1.0" "r1"))), w')
    /\ sent w' = 4%nat
    /\ sleeps (trace w') = [2000; 4000; 8000].
Proof.
  apply (proj1 (proj2 (proj2 (proj2 (proj2 backoff_schedule))))
           (failingFirst 3 429 "Too Many Requests"%string (pageReply 1 1))
           sampleNow sampleKey sampleUrl 1 5 initial
           (statusReply 429 "Too Many Requests"%string)
           (statusReply 429 "Too Many Requests"%string)
           (statusReply 429 "Too Many Requests"%string)
           (pageReply 1 1) _ [samplePatient "DEMO001"]);
    reflexivity.
Defined.

(** * Further properties of the scoring engine *)

Lemma leb_trans (x y z : JsNumber) :
  leb x y = true -> leb y z = true -> leb x z = true.
Proof.
  unfold leb, SFleb.
  destruct x as [[]|[]| |[] mx ex], y as [[]|[]| |[] my ey],
           z as [[]|[]| |[] mz ez];
    cbn; intros H1 H2; try discriminate; try reflexivity; order_cases.
Qed.

Lemma ltb_leb_trans (x y z : JsNumber) :
  ltb x y = true -> leb y z = true -> ltb x z = true.
Proof.
  unfold leb, ltb, SFleb, SFltb.
  destruct x as [[]|[]| |[] mx ex], y as [[]|[]| |[] my ey],
           z as [[]|[]| |[] mz ez];
    cbn; intros H1 H2; try discriminate; try reflexivity; order_cases.
Qed.

Lemma geb_mono (x y c : JsNumber) :
  leb x y = true -> geb x c = true -> geb y c = true.
Proof. intros Hxy Hc. apply (leb_trans c x y); assumption. Qed.

Lemma gtb_mono (x y c : JsNumber) :
  leb x y = true -> gtb x c = true -> gtb y c = true.
Proof. intros Hxy Hc. apply (ltb_leb_trans c x y); assumption. Qed.

Lemma leb_not_NaN (x y : JsNumber) :
  leb x y = true -> isNaN x = false /\ isNaN y = false.
Proof.
  unfold leb, SFleb. destruct x, y; cbn; intros H; try discriminate H;
    split; reflexivity.
Qed.

Lemma systolicScore_mono (s1 s2 : JsNumber) :
  leb s1 s2 = true -> systolicScore s1 <= systolicScore s2.
Proof.
  intros H. unfold systolicScore.
  pose proof (geb_mono s1 s2 (int 140) H).
  pose proof (geb_mono s1 s2 (int 130) H).
  pose proof (geb_mono s1 s2 (int 120) H).
  destruct (geb s1 (int 140)), (geb s1 (int 130)), (geb s1 (int 120));
    repeat match goal with
           | Hm : true = true -> _ |- _ => rewrite (Hm eq_refl); clear Hm
           end;
    destruct (geb s2 (int 140)), (geb s2 (int 130)), (geb s2 (int 120)); lia.
Qed.

Lemma diastolicAlone_mono (d1 d2 : JsNumber) :
  leb d1 d2 = true -> diastolicAlone d1 <= diastolicAlone d2.
Proof.
  intros H. unfold diastolicAlone.
  pose proof (geb_mono d1 d2 (int 90) H).
  pose proof (geb_mono d1 d2 (int 80) H).
  destruct (geb d1 (int 90)), (geb d1 (int 80));
    repeat match goal with
           | Hm : true = true -> _ |- _ => rewrite (Hm eq_refl); clear Hm
           end;
    destruct (geb d2 (int 90)), (geb d2 (int 80)); lia.
Qed.

Lemma final_score_diastolicAlone (systolic diastolic : JsNumber) :
  Z.max (systolicScore systolic) (diastolicScore systolic diastolic)
  = Z.max (systolicScore systolic) (diastolicAlone diastolic).
Proof.
  unfold systolicScore, diastolicScore, diastolicAlone.
  destruct (geb diastolic (int 90)), (geb diastolic (int 80)),
    (geb systolic (int 140)), (geb systolic (int 130)),
    (geb systolic (int 120)), (ltb systolic (int 130)),
    (ltb systolic (int 120)); cbn; lia.
Qed.

(** X1. The diastolic branch for readings below 80 never decides the
    result: whatever the two readings, the final score is the larger of
    the systolic score and of the band of the diastolic reading alone
    (4 from 90 up, 3 from 80 up, else nothing), so a diastolic reading
    that is not 80 or more leaves the systolic score as it is. *)
Theorem diastolic_below_80_never_decides (systolic diastolic : JsNumber) :
  Z.max (systolicScore systolic) (diastolicScore systolic diastolic)
  = Z.max (systolicScore systolic) (diastolicAlone diastolic)
  /\ (geb diastolic (int 80) = false ->
       Z.max (systolicScore systolic) (diastolicScore systolic diastolic)
       = systolicScore systolic).
Proof.
  split; [apply final_score_diastolicAlone|].
  intros H80. rewrite final_score_diastolicAlone. unfold diastolicAlone.
  destruct (geb diastolic (int 90)) eqn:H90.
  - assert (H : geb diastolic (int 80) = true)
      by (apply (leb_trans (int 80) (int 90) diastolic); [reflexivity|exact H90]).
    rewrite H in H80. discriminate.
  - rewrite H80. pose proof (systolicScore_range systolic). lia.
Qed.

Lemma diastolic_below_80_never_decides_witness :
  Z.max (systolicScore (Number (str "125")))
        (diastolicScore (Number (str "125")) (Number (str "70")))
  = systolicScore (Number (str "125")).
Proof.
  apply (proj2 (diastolic_below_80_never_decides (Number (str "125"))
                  (Number (str "70")))).
  reflexivity.
Defined.

(** X2. The blood-pressure score never drops when a reading rises: for
    numeric readings with [systolic1 <= systolic2] and
    [diastolic1 <= diastolic2] the final score of the first pair is at
    most that of the second. *)
Theorem bloodPressure_score_monotone (s1 d1 s2 d2 : JsNumber) :
  leb s1 s2 = true -> leb d1 d2 = true ->
  Z.max (systolicScore s1) (diastolicScore s1 d1)
  <= Z.max (systolicScore s2) (diastolicScore s2 d2).
Proof.
  intros Hs Hd.
  rewrite !final_score_diastolicAlone.
  pose proof (systolicScore_mono s1 s2 Hs).
  pose proof (diastolicAlone_mono d1 d2 Hd). lia.
Qed.

Lemma bloodPressure_score_monotone_witness :
  Z.max (systolicScore (int 118)) (diastolicScore (int 118) (int 76))
  <= Z.max (systolicScore (int 131)) (diastolicScore (int 131) (int 76)).
Proof.
  apply bloodPressure_score_monotone; reflexivity.
Defined.

(** X3. [scoreAge] on every input: null, undefined and a string that
    converts to NaN give score 0, invalid; every numeric age is valid
    and scores 2 when it is over 65 and 1 otherwise, the branches for
    40 to 65 and for under 40 giving the same score; so a valid age
    never scores 0 and the score never drops when the age rises. *)
Theorem scoreAge_spec :
  scoreAge VNull = Field.mk 0 false
  /\ scoreAge VUndefined = Field.mk 0 false
  /\ (forall s, isNaN (Number s) = true ->
        scoreAge (VString s) = Field.mk 0 false)
  /\ (forall v n, toNumber v = Some n -> isNaN n = false ->
        scoreAge v = Field.mk (if gtb n (int 65) then 2 else 1) true)
  /\ (forall v, Field.isValid (scoreAge v) = true <->
                1 <= Field.score (scoreAge v))
  /\ (forall v1 v2 n1 n2,
        toNumber v1 = Some n1 -> toNumber v2 = Some n2 ->
        leb n1 n2 = true ->
        Field.score (scoreAge v1) <= Field.score (scoreAge v2)).
Proof.
  split; [reflexivity|]. split; [reflexivity|].
  split; [intros s H; unfold scoreAge; cbn; rewrite H; reflexivity|].
  assert (Hnum : forall v n, toNumber v = Some n -> isNaN n = false ->
            scoreAge v = Field.mk (if gtb n (int 65) then 2 else 1) true).
  { intros v n Hv Hn. unfold scoreAge. rewrite Hv, Hn.
    destruct (gtb n (int 65)), (geb n (int 40)); reflexivity. }
  split; [exact Hnum|]. split.
  - intros v. unfold scoreAge. destruct (toNumber v) as [n|];
      [|cbn; split; [discriminate|lia]].
    destruct (isNaN n), (gtb n (int 65)), (geb n (int 40)); cbn;
      split; intros; try reflexivity; try discriminate; lia.
  - intros v1 v2 n1 n2 H1 H2 Hle.
    destruct (leb_not_NaN n1 n2 Hle) as [N1 N2].
    rewrite (Hnum v1 n1 H1 N1), (Hnum v2 n2 H2 N2). cbn [Field.score].
    pose proof (gtb_mono n1 n2 (int 65) Hle) as Hm.
    destruct (gtb n1 (int 65)); [rewrite Hm by reflexivity; lia|].
    destruct (gtb n2 (int 65)); lia.
Qed.

Lemma scoreAge_spec_witness :
  scoreAge (VString (str "forty")) = Field.mk 0 false
  /\ map scoreAge [VNumber (int 39); VNumber (int 40); VNumber (int 65);
                   VString (str "66")]
     = [Field.mk 1 true; Field.mk 1 true; Field.mk 1 true; Field.mk 2 true]
  /\ Field.score (scoreAge (VNumber (int 39)))
     <= Field.score (scoreAge (VString (str "70"))).
Proof.
  destruct scoreAge_spec as (_ & _ & Hnan & Hnum & _ & Hmono).
  split; [apply Hnan; reflexivity|]. split.
  - cbn [map].
    rewrite (Hnum (VNumber (int 39)) (int 39) eq_refl eq_refl).
    rewrite (Hnum (VNumber (int 40)) (int 40) eq_refl eq_refl).
    rewrite (Hnum (VNumber (int 65)) (int 65) eq_refl eq_refl).
    rewrite (Hnum (VString (str "66")) (Number (str "66")) eq_refl eq_refl).
    reflexivity.
  - apply (Hmono _ _ (int 39) (Number (str "70"))); reflexivity.
Defined.

(** X4. The temperature score never drops when the reading rises: for
    numeric readings [t1 <= t2] the score of the first is at most the
    score of the second. *)
Theorem scoreTemperature_monotone (v1 v2 : JsValue) (t1 t2 : JsNumber) :
  toNumber v1 = Some t1 -> toNumber v2 = Some t2 ->
  leb t1 t2 = true ->
  Field.score (scoreTemperature v1) <= Field.score (scoreTemperature v2).
Proof.
  intros H1 H2 Hle. destruct (leb_not_NaN t1 t2 Hle) as [N1 N2].
  unfold scoreTemperature. rewrite H1, H2, N1, N2.
  pose proof (geb_mono t1 t2 lit_101_0 Hle) as M101.
  pose proof (geb_mono t1 t2 lit_99_6 Hle) as M996.
  destruct (geb t1 lit_101_0); [rewrite M101 by reflexivity; cbn; lia|].
  destruct (geb t1 lit_99_6).
  - rewrite M996 by reflexivity. destruct (geb t2 lit_101_0); cbn; lia.
  - destruct (geb t2 lit_101_0), (geb t2 lit_99_6); cbn; lia.
Qed.

Lemma scoreTemperature_monotone_witness :
  Field.score (scoreTemperature (VString (str "98.6")))
  <= Field.score (scoreTemperature (VNumber lit_101_0)).
Proof.
  apply (scoreTemperature_monotone _ _ (Number (str "98.6")) lit_101_0);
    reflexivity.
Defined.

Lemma fever_of_number (v : JsValue) (n : JsNumber) :
  toNumber v = Some n ->
  Field.isValid (scoreTemperature v) && geb n lit_99_6
  = (1 <=? Field.score (scoreTemperature v)).
Proof.
  intros Hv. unfold scoreTemperature. rewrite Hv.
  destruct (isNaN n); [reflexivity|].
  destruct (geb n lit_101_0) eqn:H101.
  - assert (H : geb n lit_99_6 = true)
      by (apply (leb_trans lit_99_6 lit_101_0 n); [reflexivity|exact H101]).
    rewrite H. reflexivity.
  - destruct (geb n lit_99_6); reflexivity.
Qed.

Lemma hasFever_score (patient : Patient) :
  hasFever (assessPatientRisk patient)
  = (1 <=? Field.score (scoreTemperature (temperature patient))).
Proof.
  unfold assessPatientRisk. cbn [hasFever].
  destruct (temperature patient) as [| |n|s]; try reflexivity;
    cbn [isAbsent negb NumberOfValue]; rewrite andb_true_r;
    apply fever_of_number; reflexivity.
Qed.

(** X5. The fever flag and the temperature score agree: [hasFever] is
    set exactly when the temperature score is 1 or 2, so a record is in
    the fever cohort exactly when its temperature adds to its total. *)
Theorem hasFever_iff_temperature_scores (patient : Patient) :
  hasFever (assessPatientRisk patient)
  = (1 <=? Risk.temperature (riskScore (assessPatientRisk patient))).
Proof. apply hasFever_score. Qed.

(** ** White space around the readings *)

Lemma trimStart_idempotent (s : JsString) : trimStart (trimStart s) = trimStart s.
Proof.
  induction s as [|c s IH]; [reflexivity|]. cbn.
  destruct (isWhiteSpace c) eqn:Hc; [exact IH|]. cbn. rewrite Hc. reflexivity.
Qed.

Lemma trimStart_snoc (s : JsString) (c : N) :
  isWhiteSpace c = false -> trimStart (s ++ [c]) = trimStart s ++ [c].
Proof.
  intros Hc. induction s as [|d s IH]; cbn; [rewrite Hc; reflexivity|].
  destruct (isWhiteSpace d); [exact IH | reflexivity].
Qed.

Lemma trimEnd_cons (c : N) (s : JsString) :
  isWhiteSpace c = false -> trimEnd (c :: s) = c :: trimEnd s.
Proof.
  intros Hc. unfold trimEnd. cbn [rev].
  rewrite (trimStart_snoc (rev s) c Hc), rev_app_distr. reflexivity.
Qed.

Lemma trimEnd_idempotent (s : JsString) : trimEnd (trimEnd s) = trimEnd s.
Proof.
  unfold trimEnd. rewrite rev_involutive, trimStart_idempotent. reflexivity.
Qed.

Lemma trim_idempotent (s : JsString) : trim (trim s) = trim s.
Proof.
  unfold trim.
  assert (Hhead : trimStart s = []
                  \/ exists c u, trimStart s = c :: u /\ isWhiteSpace c = false).
  { induction s as [|c s IH]; [left; reflexivity|]. cbn.
    destruct (isWhiteSpace c) eqn:Hc; [exact IH|].
    right. exists c, s. split; [reflexivity|exact Hc]. }
  destruct Hhead as [->|(c & u & -> & Hc)]; [reflexivity|].
  rewrite (trimEnd_cons c u Hc). cbn [trimStart]. rewrite Hc.
  rewrite (trimEnd_cons c _ Hc), trimEnd_idempotent. reflexivity.
Qed.

Lemma In_trimStart (c : N) (s : JsString) : In c (trimStart s) -> In c s.
Proof.
  induction s as [|d s IH]; cbn; [tauto|].
  destruct (isWhiteSpace d); [intros H; right; exact (IH H)|tauto].
Qed.

Lemma In_trim (c : N) (s : JsString) : In c (trim s) -> In c s.
Proof.
  unfold trim, trimEnd. intros H. apply In_trimStart.
  apply in_rev in H. apply In_trimStart in H. apply in_rev in H. exact H.
Qed.

Lemma split_without_separator (sep : N) (s : JsString) :
  ~ In sep s -> split sep s = [s].
Proof.
  induction s as [|c s IH]; cbn; [reflexivity|]. intros H.
  destruct (N.eqb_spec c sep) as [->|_]; [exfalso; apply H; left; reflexivity|].
  rewrite IH by (intros Hs; apply H; right; exact Hs). reflexivity.
Qed.

Lemma split_at_separator (sep : N) (p r : JsString) :
  ~ In sep p -> split sep (p ++ sep :: r) = p :: split sep r.
Proof.
  induction p as [|c p IH]; cbn; intros H.
  - rewrite N.eqb_refl. reflexivity.
  - destruct (N.eqb_spec c sep) as [->|_]; [exfalso; apply H; left; reflexivity|].
    rewrite IH by (intros Hs; apply H; right; exact Hs). reflexivity.
Qed.

(** X6. White space around the two readings does not matter: for parts
    without a '/', the result for [systolic/diastolic] is the result
    for the two parts trimmed. *)
Theorem scoreBloodPressure_ignores_padding (p0 p1 : JsString) :
  noSlash p0 -> noSlash p1 ->
  scoreBloodPressure (Some (p0 ++ 47%N :: p1))
  = scoreBloodPressure (Some (trim p0 ++ 47%N :: trim p1)).
Proof.
  unfold noSlash. intros H0 H1.
  assert (Hsplit : forall a b, ~ In 47%N a -> ~ In 47%N b ->
            split 47 (a ++ 47%N :: b) = [a; b]).
  { intros a b Ha Hb. rewrite (split_at_separator 47 a b Ha).
    rewrite (split_without_separator 47 b Hb). reflexivity. }
  assert (T0 : ~ In 47%N (trim p0)) by (intros H; apply H0, In_trim, H).
  assert (T1 : ~ In 47%N (trim p1)) by (intros H; apply H1, In_trim, H).
  unfold scoreBloodPressure.
  rewrite (two_parts_not_blank _ p0 p1 (Hsplit p0 p1 H0 H1)).
  rewrite (two_parts_not_blank _ _ _ (Hsplit (trim p0) (trim p1) T0 T1)).
  rewrite (Hsplit p0 p1 H0 H1), (Hsplit (trim p0) (trim p1) T0 T1).
  cbn [List.length Nat.eqb negb nth]. rewrite !trim_idempotent. reflexivity.
Qed.

Lemma scoreBloodPressure_ignores_padding_witness :
  scoreBloodPressure (Some (str " 135 / 95 "))
  = scoreBloodPressure (Some (str "135/95")).
Proof.
  apply (scoreBloodPressure_ignores_padding (str " 135 ") (str " 95 "));
    unfold noSlash; cbn; intuition discriminate.
Defined.

(** ** The cohort builder *)

Lemma categorizePatients_from (patients : list PatientWithRisk) :
  forall acc,
    fold_left
      (fun acc patient =>
         mkAssessmentResults
           (if isHighRisk patient
            then high_risk_patients acc ++ [r_patient_id patient]
            else high_risk_patients acc)
           (if hasFever patient
            then fever_patients acc ++ [r_patient_id patient]
            else fever_patients acc)
           (if hasDataQualityIssues patient
            then data_quality_issues acc ++ [r_patient_id patient]
            else data_quality_issues acc))
      patients acc
    = mkAssessmentResults
        (high_risk_patients acc
         ++ map r_patient_id (filter isHighRisk patients))
        (fever_patients acc ++ map r_patient_id (filter hasFever patients))
        (data_quality_issues acc
         ++ map r_patient_id (filter hasDataQualityIssues patients)).
Proof.
  induction patients as [|p patients IH]; intros acc; cbn.
  - rewrite !app_nil_r. destruct acc; reflexivity.
  - rewrite IH. cbn.
    destruct (isHighRisk p), (hasFever p), (hasDataQualityIssues p); cbn;
      rewrite <- ?app_assoc; reflexivity.
Qed.

(** X7. Each cohort of [categorizePatients] is the identifiers of the
    records that carry its flag, in input order and one entry per
    record; so the results of two batches concatenate to the result of
    the concatenated batch, and no cohort is longer than the input. *)
Theorem categorizePatients_filters (patients : list PatientWithRisk) :
  categorizePatients patients
  = mkAssessmentResults
      (map r_patient_id (filter isHighRisk patients))
      (map r_patient_id (filter hasFever patients))
      (map r_patient_id (filter hasDataQualityIssues patients))
  /\ (forall more,
        categorizePatients (patients ++ more)
        = mkAssessmentResults
            (high_risk_patients (categorizePatients patients)
             ++ high_risk_patients (categorizePatients more))
            (fever_patients (categorizePatients patients)
             ++ fever_patients (categorizePatients more))
            (data_quality_issues (categorizePatients patients)
             ++ data_quality_issues (categorizePatients more)))
  /\ (List.length (high_risk_patients (categorizePatients patients))
      <= List.length patients)%nat
  /\ (List.length (fever_patients (categorizePatients patients))
      <= List.length patients)%nat
  /\ (List.length (data_quality_issues (categorizePatients patients))
      <= List.length patients)%nat.
Proof.
  assert (Heq : forall l, categorizePatients l
            = mkAssessmentResults
                (map r_patient_id (filter isHighRisk l))
                (map r_patient_id (filter hasFever l))
                (map r_patient_id (filter hasDataQualityIssues l))).
  { intros l. unfold categorizePatients. rewrite categorizePatients_from.
    reflexivity. }
  split; [apply Heq|]. split.
  - intros more. rewrite !Heq. cbn. rewrite !filter_app, !map_app. reflexivity.
  - rewrite Heq. cbn. rewrite !length_map. repeat split; apply filter_length_le.
Qed.

(** X8. The pipeline of the dashboard, [categorizePatients] after
    [assessPatientRisk] on every record: an identifier is in the
    high-risk cohort exactly when a record with that identifier has
    three field scores that sum to 4 or more; every record with an absent
    temperature or age is in the data-quality cohort and none of them is
    in the fever cohort on account of that reading. *)
Theorem cohorts_of_assessed (patients : list Patient) (id : string) :
  let cohorts := categorizePatients (map assessPatientRisk patients) in
  (In id (high_risk_patients cohorts) <->
   exists p, In p patients /\ patient_id p = id
             /\ 4 <= BP.score (scoreBloodPressure (blood_pressure p))
                     + Field.score (scoreTemperature (temperature p))
                     + Field.score (scoreAge (age p)))
  /\ (In id (fever_patients cohorts) <->
      exists p, In p patients /\ patient_id p = id
                /\ 1 <= Field.score (scoreTemperature (temperature p)))
  /\ (forall p, In p patients -> patient_id p = id ->
        isAbsent (temperature p) = true \/ isAbsent (age p) = true
        \/ blood_pressure p = None ->
        In id (data_quality_issues cohorts)).
Proof.
  cbn zeta.
  assert (Heq : forall l, categorizePatients l
            = mkAssessmentResults
                (map r_patient_id (filter isHighRisk l))
                (map r_patient_id (filter hasFever l))
                (map r_patient_id (filter hasDataQualityIssues l))).
  { intros l. unfold categorizePatients. rewrite categorizePatients_from.
    reflexivity. }
  rewrite Heq. cbn [high_risk_patients fever_patients data_quality_issues].
  assert (Hmem : forall (flag : PatientWithRisk -> bool),
            In id (map r_patient_id (filter flag (map assessPatientRisk patients)))
            <-> exists p, In p patients /\ patient_id p = id
                          /\ flag (assessPatientRisk p) = true).
  { intros flag. rewrite in_map_iff. split.
    - intros (r & Hid & Hr). apply filter_In in Hr as [Hr Hflag].
      apply in_map_iff in Hr as (p & <- & Hp). exists p. repeat split; assumption.
    - intros (p & Hp & Hid & Hflag). exists (assessPatientRisk p).
      split; [exact Hid|]. apply filter_In. split; [|exact Hflag].
      apply in_map, Hp. }
  split; [|split].
  - rewrite Hmem. split; intros (p & Hp & Hid & H); exists p;
      (split; [exact Hp|split; [exact Hid|]]).
    + unfold assessPatientRisk in H; cbn in H. apply Z.geb_le in H. lia.
    + unfold assessPatientRisk; cbn. apply Z.geb_le. lia.
  - rewrite Hmem. split; intros (p & Hp & Hid & H); exists p;
      (split; [exact Hp|split; [exact Hid|]]).
    + rewrite hasFever_score in H. apply Z.leb_le in H. exact H.
    + rewrite hasFever_score. apply Z.leb_le. exact H.
  - intros p Hp Hid Habsent. apply Hmem. exists p.
    split; [exact Hp|split; [exact Hid|]].
    unfold assessPatientRisk; cbn [hasDataQualityIssues].
    destruct Habsent as [H|[H|H]].
    + destruct (temperature p); try discriminate H; cbn;
        rewrite orb_true_r; reflexivity.
    + destruct (age p); try discriminate H; cbn;
        rewrite orb_true_r; reflexivity.
    + rewrite H. reflexivity.
Qed.

(** * Further properties of the client *)

Lemma sleeps_snoc_fetch (t : list Event) (req : Request) :
  sleeps (t ++ [EvFetch req]) = sleeps t.
Proof. rewrite sleeps_app. cbn. apply app_nil_r. Qed.

Section MoreRetryLoopFacts.

Context {A : Type} (target : Target) (tryBlock : Z -> M (LoopStep A)).

Lemma sleeps_afterCatch (attempt : Z) (w : World) :
  sleeps (trace (afterCatch target attempt w))
  = sleeps (trace w) ++ [getExponentialBackoff attempt BASE_DELAY].
Proof. unfold afterCatch. cbn. rewrite sleeps_app. reflexivity. Qed.

(** When every remaining iteration throws, the loop raises the error of
    the last one, having slept after each of the others. *)
Lemma retryLoop_all_throw :
  forall remaining attempt lastError (errors : nat -> ApiError) w,
    attempt + Z.of_nat remaining = MAX_RETRIES - 1 ->
    (forall k w1, (k <= remaining)%nat -> sent w1 = (sent w + k)%nat ->
       exists w2,
         tryBlock (attempt + Z.of_nat k) w1 = (Throw (errors k), w2)
         /\ sent w2 = S (sent w1)
         /\ sleeps (trace w2) = sleeps (trace w1)) ->
    exists w',
      retryLoop target tryBlock (S remaining) attempt lastError w
      = (Throw (errors remaining), w')
      /\ sent w' = (sent w + S remaining)%nat
      /\ sleeps (trace w') = sleeps (trace w) ++ catchDelays attempt remaining.
Proof.
  induction remaining as [|remaining IH]; intros attempt lastError errors w Hlast Hall.
  - destruct (Hall 0%nat w) as (w2 & Hstep & Hsent & Hsleep); [lia|lia|].
    rewrite Z.add_0_r in Hstep, Hlast.
    rewrite (retryLoop_throw _ _ _ _ _ _ _ _ Hstep), Hlast, Z.eqb_refl.
    exists w2. cbn. rewrite app_nil_r. repeat split; [lia|exact Hsleep].
  - destruct (Hall 0%nat w) as (w2 & Hstep & Hsent & Hsleep); [lia|lia|].
    rewrite Z.add_0_r in Hstep.
    rewrite (retryLoop_throw _ _ _ _ _ _ _ _ Hstep).
    destruct (Z.eqb_spec attempt (MAX_RETRIES - 1)) as [Heq|_]; [lia|].
    destruct (IH (attempt + 1) (Some (errors 0%nat)) (fun k => errors (S k))
                (afterCatch target attempt w2))
      as (w' & Hrun & Hsent' & Hsleep').
    + lia.
    + intros k w1 Hk Hw1. cbn in Hw1.
      destruct (Hall (S k) w1) as (w3 & H3 & S3 & L3); [lia|lia|].
      exists w3. split; [|split; assumption].
      rewrite <- H3. f_equal. lia.
    + exists w'. split; [exact Hrun|]. cbn in Hsent'. split; [lia|].
      rewrite Hsleep', sleeps_afterCatch, Hsleep, <- app_assoc. reflexivity.
Qed.

(** When the first [k] iterations end in [continue], the loop is where
    it would be had it started at the attempt [attempt + k]. *)
Lemma retryLoop_skip_continues (delays : nat -> Z) :
  forall k remaining attempt lastError w,
    (forall j w1, (j < k)%nat -> sent w1 = (sent w + j)%nat ->
       exists w2, tryBlock (attempt + Z.of_nat j) w1 = (Ok Continue, w2)
                  /\ sent w2 = S (sent w1)
                  /\ sleeps (trace w2) = sleeps (trace w1) ++ [delays j]) ->
    exists w1,
      retryLoop target tryBlock (k + remaining) attempt lastError w
      = retryLoop target tryBlock remaining (attempt + Z.of_nat k) lastError w1
      /\ sent w1 = (sent w + k)%nat
      /\ sleeps (trace w1) = sleeps (trace w) ++ map delays (seq 0 k).
Proof.
  intros k. revert delays.
  induction k as [|k IH]; intros delays remaining attempt lastError w Hall.
  - exists w. rewrite Z.add_0_r, app_nil_r. repeat split. lia.
  - destruct (Hall 0%nat w) as (w2 & Hstep & Hsent & Hsleep); [lia|lia|].
    rewrite Z.add_0_r in Hstep. cbn [Nat.add].
    rewrite (retryLoop_continue _ _ _ _ _ _ _ Hstep).
    destruct (IH (fun j => delays (S j)) remaining (attempt + 1) lastError w2)
      as (w1 & Hrun & Hsent1 & Hsleep1).
    + intros j w3 Hj Hw3.
      destruct (Hall (S j) w3) as (w4 & H4 & S4 & L4); [lia|lia|].
      exists w4. split; [|split; assumption]. rewrite <- H4. f_equal. lia.
    + exists w1. rewrite Hrun. split; [f_equal; lia|]. split; [lia|].
      rewrite Hsleep1, Hsleep, <- app_assoc. cbn [seq map app].
      rewrite <- seq_shift, map_map. reflexivity.
Qed.

(** The time a loop sleeps is bounded by the doubled schedule, when no
    iteration throws after it has slept. *)
Lemma retryLoop_sleep_bound :
  (forall attempt w, 0 <= attempt ->
     totalSleep (trace (snd (tryBlock attempt w)))
     <= totalSleep (trace w)
        + match fst (tryBlock attempt w) with
          | Ok _ => 2000 * 2 ^ attempt
          | Throw _ => 0
          end) ->
  forall remaining attempt lastError w, 0 <= attempt ->
    totalSleep (trace (snd (retryLoop target tryBlock remaining attempt lastError w)))
    <= totalSleep (trace w) + 2000 * 2 ^ attempt * (2 ^ Z.of_nat remaining - 1).
Proof.
  intros Hblock. induction remaining as [|remaining IH];
    intros attempt lastError w Ha.
  - destruct (afterLoop_throws (A:=A) target lastError w) as [e He].
    cbn [retryLoop]. rewrite He. cbn. lia.
  - assert (Hpow : 0 < 2 ^ attempt) by (apply Z.pow_pos_nonneg; lia).
    assert (Hpow' : 0 < 2 ^ Z.of_nat remaining) by (apply Z.pow_pos_nonneg; lia).
    assert (Hs : 2 ^ Z.of_nat (S remaining) = 2 * 2 ^ Z.of_nat remaining)
      by (rewrite Nat2Z.inj_succ, Z.pow_succ_r; lia).
    assert (Hs' : 2 ^ (attempt + 1) = 2 * 2 ^ attempt)
      by (rewrite Z.pow_add_r; lia).
    pose proof (Hblock attempt w Ha) as Hw.
    rewrite Hs.
    destruct (tryBlock attempt w) as [[[a|]|e] w'] eqn:Hstep;
      cbn [fst snd] in Hw.
    + rewrite (retryLoop_return _ _ _ _ _ _ _ _ Hstep). cbn [snd]. nia.
    + rewrite (retryLoop_continue _ _ _ _ _ _ _ Hstep).
      specialize (IH (attempt + 1) lastError w' ltac:(lia)).
      rewrite Hs' in IH. nia.
    + rewrite (retryLoop_throw _ _ _ _ _ _ _ _ Hstep).
      destruct (attempt =? MAX_RETRIES - 1); [cbn [snd]; nia|].
      specialize (IH (attempt + 1) (Some e) (afterCatch target attempt w')
                    ltac:(lia)).
      assert (Hc : totalSleep (trace (afterCatch target attempt w'))
                   = totalSleep (trace w') + 1000 * 2 ^ attempt).
      { unfold totalSleep. rewrite sleeps_afterCatch.
        unfold getExponentialBackoff, BASE_DELAY.
        generalize (sleeps (trace w')). intros l.
        induction l as [|x l IHl]; cbn [app fold_right]; lia. }
      rewrite Hs', Hc in IH. nia.
Qed.

End MoreRetryLoopFacts.

Lemma sum_snoc (l : list Z) (d : Z) :
  fold_right Z.add 0 (l ++ [d]) = fold_right Z.add 0 l + d.
Proof. induction l as [|x l IH]; cbn [app fold_right]; lia. Qed.

Section MorePageFacts.

Variable server : nat -> Request -> FetchOutcome PatientsResponse.
Variable now : string.
Variables apiKey baseUrl : string.

Local Abbreviation fetchPage := (fetchPatientsPage server now apiKey baseUrl).
Local Abbreviation tryPage := (pageTryBlock server now apiKey baseUrl).

Lemma pageTryBlock_failure page limit attempt w e :
  failureOfPage (server (sent w) (GetPatients baseUrl apiKey page limit))
  = Some e ->
  tryPage page limit attempt w
  = (Throw e,
     mkWorld (S (sent w))
       (trace w ++ [EvFetch (GetPatients baseUrl apiKey page limit)])).
Proof.
  unfold failureOfPage, pageTryBlock, bind, fetch, parseJson.
  destruct (server _ _) as [reason|response]; [intros [= <-]; reflexivity|].
  destruct (isRetryableError (status response)); [discriminate|].
  destruct (negb (ok response)); [intros [= <-]; reflexivity|].
  destruct (json response) as [[|body]|]; intros [= <-]; reflexivity.
Qed.

Lemma pageTryBlock_sleep page limit attempt w :
  0 <= attempt ->
  totalSleep (trace (snd (tryPage page limit attempt w)))
  <= totalSleep (trace w)
     + match fst (tryPage page limit attempt w) with
       | Ok _ => 2000 * 2 ^ attempt
       | Throw _ => 0
       end.
Proof.
  intros Ha.
  assert (Hpow : 0 < 2 ^ attempt) by (apply Z.pow_pos_nonneg; lia).
  assert (Hsnoc : forall t e, sleeps [e] = [] ->
            totalSleep (t ++ [e]) = totalSleep t).
  { intros t e He. unfold totalSleep. rewrite sleeps_app, He, app_nil_r.
    reflexivity. }
  unfold pageTryBlock, bind, fetch, parseJson.
  destruct (server _ _) as [reason|response]; cbn [fst snd trace].
  - rewrite Hsnoc by reflexivity. lia.
  - destruct (isRetryableError (status response)).
    + rewrite retryLater_run. cbn [fst snd trace].
      unfold totalSleep. rewrite !sleeps_app. cbn [sleeps flat_map app].
      rewrite app_nil_r. unfold getExponentialBackoff.
      rewrite sum_snoc. destruct (status response =? 429); lia.
    + destruct (negb (ok response)); cbn [fst snd trace throw];
        [rewrite Hsnoc by reflexivity; lia|].
      destruct (json response) as [[|body]|]; cbn [fst snd trace throw ret];
        try (rewrite Hsnoc by reflexivity; lia).
      destruct (data body); unfold console, emit, ret;
        cbn [fst snd trace sent]; repeat rewrite Hsnoc by reflexivity; lia.
Qed.

End MorePageFacts.

Section MoreSubmissionFacts.

Variable SubmissionResponse : Type.
Variable server : nat -> Request -> FetchOutcome SubmissionResponse.
Variables apiKey baseUrl : string.

Local Abbreviation trySubmit := (submitTryBlock SubmissionResponse server apiKey baseUrl).

Lemma submitTryBlock_failure results attempt w e :
  failureOfSubmit (server (sent w) (PostAssessment baseUrl apiKey results))
  = Some e ->
  trySubmit results attempt w
  = (Throw e,
     mkWorld (S (sent w))
       (trace w ++ [EvFetch (PostAssessment baseUrl apiKey results)])).
Proof.
  unfold failureOfSubmit, submitTryBlock, bind, fetch, parseJson.
  destruct (server _ _) as [reason|response]; [intros [= <-]; reflexivity|].
  destruct (isRetryableError (status response)); [discriminate|].
  destruct (negb (ok response)); [intros [= <-]; reflexivity|].
  destruct (json response); intros [= <-]; reflexivity.
Qed.

Lemma submitTryBlock_success results attempt w response value :
  server (sent w) (PostAssessment baseUrl apiKey results) = Reply response ->
  isRetryableError (status response) = false ->
  ok response = true ->
  json response = Some value ->
  trySubmit results attempt w
  = (Ok (Return value),
     mkWorld (S (sent w))
       (trace w ++ [EvFetch (PostAssessment baseUrl apiKey results)])).
Proof.
  intros Hreply Hretry Hok Hjson.
  unfold submitTryBlock, bind, fetch, parseJson.
  rewrite Hreply, Hretry, Hok, Hjson. reflexivity.
Qed.

Lemma submitTryBlock_sleep results attempt w :
  0 <= attempt ->
  totalSleep (trace (snd (trySubmit results attempt w)))
  <= totalSleep (trace w)
     + match fst (trySubmit results attempt w) with
       | Ok _ => 2000 * 2 ^ attempt
       | Throw _ => 0
       end.
Proof.
  intros Ha.
  assert (Hpow : 0 < 2 ^ attempt) by (apply Z.pow_pos_nonneg; lia).
  assert (Hsnoc : forall t e, sleeps [e] = [] ->
            totalSleep (t ++ [e]) = totalSleep t).
  { intros t e He. unfold totalSleep. rewrite sleeps_app, He, app_nil_r.
    reflexivity. }
  unfold submitTryBlock, bind, fetch, parseJson.
  destruct (server _ _) as [reason|response]; cbn [fst snd trace].
  - rewrite Hsnoc by reflexivity. lia.
  - destruct (isRetryableError (status response)).
    + rewrite retryLater_run. cbn [fst snd trace].
      unfold totalSleep. rewrite !sleeps_app. cbn [sleeps flat_map app].
      rewrite app_nil_r. unfold getExponentialBackoff.
      rewrite sum_snoc. destruct (status response =? 429); lia.
    + destruct (negb (ok response)); cbn [fst snd trace throw];
        [rewrite Hsnoc by reflexivity; lia|].
      destruct (json response); unfold ret, throw; cbn [fst snd trace];
        rewrite Hsnoc by reflexivity; lia.
Qed.

End MoreSubmissionFacts.

(** ** Calls that fail at every attempt *)

(** X9. When each of the 5 attempts of a page fetch fails in a way that
    is not a retryable status (the network is down, the status is an
    error other than 429, 500 and 503, the body is not JSON or is not an
    object), the call sends exactly 5 requests, sleeps 1000, 2000, 4000
    and 8000 ms between them and none after the last, and raises the
    error of the fifth attempt, those of the first four being dropped;
    a submission does the same. *)
Theorem failing_call_raises_last_error :
  (forall server now apiKey baseUrl page limit w (errors : nat -> ApiError),
     (forall k, (k < 5)%nat ->
        failureOfPage
          (server (sent w + k)%nat (GetPatients baseUrl apiKey page limit))
        = Some (errors k)) ->
     exists w',
       fetchPatientsPage server now apiKey baseUrl page limit w
       = (Throw (errors 4%nat), w')
       /\ sent w' = (sent w + 5)%nat
       /\ sleeps (trace w') = sleeps (trace w) ++ [1000; 2000; 4000; 8000])
  /\ (forall T server apiKey baseUrl results w (errors : nat -> ApiError),
        (forall k, (k < 5)%nat ->
           failureOfSubmit
             (server (sent w + k)%nat (PostAssessment baseUrl apiKey results))
           = Some (errors k)) ->
        exists w',
          submitAssessment T server apiKey baseUrl results w
          = (Throw (errors 4%nat), w')
          /\ sent w' = (sent w + 5)%nat
          /\ sleeps (trace w') = sleeps (trace w) ++ [1000; 2000; 4000; 8000]).
Proof.
  split.
  - intros server now apiKey baseUrl page limit w errors Hall.
    unfold fetchPatientsPage. change (Z.to_nat MAX_RETRIES) with 5%nat.
    apply (retryLoop_all_throw (PageTarget page)
             (pageTryBlock server now apiKey baseUrl page limit)
             4 0 None errors w); [reflexivity|].
    intros k w1 Hk Hw1. eexists. split.
    + apply pageTryBlock_failure. rewrite Hw1. apply Hall. lia.
    + cbn [sent trace]. split; [reflexivity|apply sleeps_snoc_fetch].
  - intros T server apiKey baseUrl results w errors Hall.
    unfold submitAssessment. change (Z.to_nat MAX_RETRIES) with 5%nat.
    apply (retryLoop_all_throw SubmissionTarget
             (submitTryBlock T server apiKey baseUrl results)
             4 0 None errors w); [reflexivity|].
    intros k w1 Hk Hw1. eexists. split.
    + apply submitTryBlock_failure. rewrite Hw1. apply Hall. lia.
    + cbn [sent trace]. split; [reflexivity|apply sleeps_snoc_fetch].
Qed.

Lemma failing_call_raises_last_error_witness :
  exists w',
    fetchPatientsPage
      (fun n _ => if (n <? 4)%nat then NetworkFailure "ECONNRESET"
                  else Reply (statusReply 403 "Forbidden"))
      sampleNow sampleKey sampleUrl 2 5 initial
    = (Throw (ErrHttp 403 "Forbidden"), w')
    /\ sent w' = 5%nat
    /\ sleeps (trace w') = [1000; 2000; 4000; 8000].
Proof.
  apply (proj1 failing_call_raises_last_error
           (fun n _ => if (n <? 4)%nat then NetworkFailure "ECONNRESET"%string
                       else Reply (statusReply 403 "Forbidden"%string))
           sampleNow sampleKey sampleUrl 2 5 initial
           (fun k => if (k <? 4)%nat then ErrNetwork "ECONNRESET"%string
                     else ErrHttp 403 "Forbidden"%string)).
  intros k Hk. do 5 (destruct k as [|k]; [reflexivity|]). lia.
Defined.

(** X10. The error raised after the last attempt can be a stale one:
    when the first attempt of a page fetch fails with an error and the
    four that follow all meet a retryable status, the call raises the
    error of the first attempt after 5 requests. *)
Theorem stale_error_is_raised
    (server : nat -> Request -> FetchOutcome PatientsResponse)
    (now apiKey baseUrl : string) (page limit : Z) (w : World) (e : ApiError) :
  failureOfPage (server (sent w) (GetPatients baseUrl apiKey page limit))
  = Some e ->
  (forall k, (1 <= k < 5)%nat ->
     exists response,
       server (sent w + k)%nat (GetPatients baseUrl apiKey page limit)
       = Reply response
       /\ isRetryableError (status response) = true) ->
  exists w',
    fetchPatientsPage server now apiKey baseUrl page limit w = (Throw e, w')
    /\ sent w' = (sent w + 5)%nat.
Proof.
  intros Hfirst Hrest.
  unfold fetchPatientsPage. change (Z.to_nat MAX_RETRIES) with 5%nat.
  rewrite (retryLoop_throw _ _ _ _ _ _ _ _
             (pageTryBlock_failure server now apiKey baseUrl page limit 0 w e
                Hfirst)).
  change (0 =? MAX_RETRIES - 1) with false. cbv iota.
  destruct (retryLoop_exhausted (PageTarget page)
              (pageTryBlock server now apiKey baseUrl page limit)
              4 (0 + 1) (Some e)
              (afterCatch (PageTarget page) 0
                 (mkWorld (S (sent w))
                    (trace w ++ [EvFetch (GetPatients baseUrl apiKey page limit)]))))
    as (w' & Hrun & Hsent).
  - intros k w1 Hk Hw1. cbn [afterCatch sent] in Hw1.
    destruct (Hrest (S k)) as (response & Hreply & Hretry); [lia|].
    replace (sent w + S k)%nat with (sent w1) in Hreply by lia.
    destruct (pageTryBlock_retryable server now apiKey baseUrl page limit
                (0 + 1 + Z.of_nat k) w1 response Hreply Hretry)
      as (w2 & Hstep & Hsent2 & _).
    exists w2. split; assumption.
  - exists w'. rewrite Hrun. split; [reflexivity|].
    cbn [afterCatch sent] in Hsent. lia.
Qed.

Lemma stale_error_is_raised_witness :
  exists w',
    fetchPatientsPage
      (fun n _ => if (n <? 1)%nat then Reply (statusReply 404 "Not Found")
                  else Reply (statusReply 429 "Too Many Requests"))
      sampleNow sampleKey sampleUrl 1 5 initial
    = (Throw (ErrHttp 404 "Not Found"), w')
    /\ sent w' = 5%nat.
Proof.
  apply (stale_error_is_raised
           (fun n _ => if (n <? 1)%nat
                       then Reply (statusReply 404 "Not Found"%string)
                       else Reply (statusReply 429 "Too Many Requests"%string))
           sampleNow sampleKey sampleUrl 1 5 initial).
  - reflexivity.
  - intros k Hk. exists (statusReply 429 "Too Many Requests"%string).
    destruct k as [|k]; [lia|]. split; reflexivity.
Defined.

(** X11. Whatever the server answers, a page fetch and a submission
    sleep at most 62 seconds in all: 2000 + 4000 + 8000 + 16000 + 32000
    ms, the schedule of five answers of status 429. *)
Theorem call_sleeps_at_most_62_seconds :
  (forall server now apiKey baseUrl page limit w,
     totalSleep (trace (snd (fetchPatientsPage server now apiKey baseUrl
                               page limit w)))
     <= totalSleep (trace w) + 62000)
  /\ (forall T server apiKey baseUrl results w,
        totalSleep (trace (snd (submitAssessment T server apiKey baseUrl
                                  results w)))
        <= totalSleep (trace w) + 62000)
  /\ totalSleep
       (trace (snd (fetchPatientsPage (alwaysStatus 429 "Too Many Requests")
                      sampleNow sampleKey sampleUrl 1 5 initial)))
     = 62000.
Proof.
  split; [|split; [|reflexivity]].
  - intros server now apiKey baseUrl page limit w. unfold fetchPatientsPage.
    change (Z.to_nat MAX_RETRIES) with 5%nat.
    pose proof (retryLoop_sleep_bound (PageTarget page)
                  (pageTryBlock server now apiKey baseUrl page limit)
                  (pageTryBlock_sleep server now apiKey baseUrl page limit)
                  5 0 None w ltac:(lia)) as H.
    change (2000 * 2 ^ 0 * (2 ^ Z.of_nat 5 - 1)) with 62000 in H. exact H.
  - intros T server apiKey baseUrl results w. unfold submitAssessment.
    change (Z.to_nat MAX_RETRIES) with 5%nat.
    pose proof (retryLoop_sleep_bound SubmissionTarget
                  (submitTryBlock T server apiKey baseUrl results)
                  (submitTryBlock_sleep T server apiKey baseUrl results)
                  5 0 None w ltac:(lia)) as H.
    change (2000 * 2 ^ 0 * (2 ^ Z.of_nat 5 - 1)) with 62000 in H. exact H.
Qed.

(** ** Runs of one page and runs that fail *)

Section RunFacts.

Variable server : nat -> Request -> FetchOutcome PatientsResponse.
Variable now : string.
Variables apiKey baseUrl : string.

Lemma fetchPatientsPage_unreachable page limit e :
  (forall n, failureOfPage (server n (GetPatients baseUrl apiKey page limit))
             = Some e) ->
  forall w,
  exists w',
    fetchPatientsPage server now apiKey baseUrl page limit w = (Throw e, w')
    /\ sent w' = (sent w + 5)%nat.
Proof.
  intros Hdown w. unfold fetchPatientsPage.
  change (Z.to_nat MAX_RETRIES) with 5%nat.
  destruct (retryLoop_all_throw (PageTarget page)
              (pageTryBlock server now apiKey baseUrl page limit)
              4 0 None (fun _ => e) w) as (w' & Hrun & Hsent & _);
    [reflexivity| |exists w'; split; assumption].
  intros k w1 Hk Hw1. eexists. split.
  - apply pageTryBlock_failure. apply Hdown.
  - cbn [sent trace]. split; [reflexivity|apply sleeps_snoc_fetch].
Qed.

Lemma fetchRemainingPages_fails
    (replies : Z -> Response PatientsResponse) (bodies : Z -> PatientsResponse)
    (totalPages : Z) (e : ApiError) :
  forall good rest currentPage allPatients w,
    (forall n p, In p (pageRange currentPage good) ->
       server n (GetPatients baseUrl apiKey p 5) = Reply (replies p)
       /\ successBody (replies p) = Some (bodies p)) ->
    (forall n,
       failureOfPage
         (server n (GetPatients baseUrl apiKey (currentPage + Z.of_nat good) 5))
       = Some e) ->
    exists w' t,
      fetchRemainingPages server now apiKey baseUrl (good + S rest) currentPage
        totalPages allPatients w
      = (Throw e, w')
      /\ sent w' = (sent w + good + 5)%nat
      /\ trace w'
         = t ++ [EvProgress
                   (mkProgress (currentPage + Z.of_nat good) totalPages
                      (count (allPatients
                              ++ flat_map (fun p => recordsOf (bodies p))
                                   (pageRange currentPage good)))
                      (MsgError e) Error)].
Proof.
  induction good as [|good IH]; intros rest currentPage allPatients w Hok Hdown.
  - cbn [Nat.add fetchRemainingPages pageRange flat_map].
    rewrite Z.add_0_r in *. rewrite app_nil_r.
    unfold bind at 1 2 3. unfold sleep, onProgress, emit at 1 2.
    cbv beta iota. unfold reportingErrors, tryCatch.
    match goal with
    | |- context [fetchPatientsPage _ _ _ _ _ _ ?w1] =>
        destruct (fetchPatientsPage_unreachable currentPage 5 e Hdown w1)
          as (w2 & Hrun & Hsent2)
    end.
    rewrite Hrun. cbv beta iota. unfold bind, emit, throw. cbv beta iota.
    eexists _, _. split; [reflexivity|]. cbn [sent trace] in *.
    split; [lia|reflexivity].
  - cbn [Nat.add fetchRemainingPages pageRange flat_map].
    destruct (Hok (sent w) currentPage (or_introl eq_refl)) as [Hreply Hbody].
    unfold bind at 1 2 3. unfold sleep, onProgress, emit at 1 2.
    cbv beta iota. unfold reportingErrors, tryCatch.
    match goal with
    | |- context [fetchPatientsPage _ _ _ _ _ _ ?w1] =>
        destruct (fetchPatientsPage_success server now apiKey baseUrl
                    currentPage 5 w1 _ _ Hreply Hbody)
          as (w2 & Hrun & Hsent2 & _)
    end.
    rewrite Hrun. cbv beta iota. unfold bind at 1. unfold emit at 1.
    cbv beta iota. rewrite pushAll_delivered.
    match goal with
    | |- context [fetchRemainingPages _ _ _ _ _ _ _ ?all ?w3] =>
        destruct (IH rest (currentPage + 1) all w3) as (w' & t & Hrest & Hsent' & Htrace)
    end.
    { intros n p Hp. apply Hok. right. exact Hp. }
    { intros n. replace (currentPage + 1 + Z.of_nat good)
        with (currentPage + Z.of_nat (S good)) by lia. apply Hdown. }
    exists w', t. rewrite Hrest. split; [reflexivity|].
    cbn [sent trace] in *. split; [lia|].
    rewrite Htrace, <- app_assoc.
    replace (currentPage + 1 + Z.of_nat good)
      with (currentPage + Z.of_nat (S good)) by lia.
    reflexivity.
Qed.

End RunFacts.

(** X12. A first page that declares at most one page, or no pagination
    at all, or 0 pages, ends the run: [fetchAllPatients] sends the one
    request, sleeps for no inter-page delay and returns the records of
    that page. *)
Theorem single_page_run
    (server : nat -> Request -> FetchOutcome PatientsResponse)
    (now apiKey baseUrl : string) (w : World)
    (response : Response PatientsResponse) (body : PatientsResponse) :
  server (sent w) (GetPatients baseUrl apiKey 1 5) = Reply response ->
  successBody response = Some body ->
  (pagination body = None
   \/ exists pg, pagination body = Some pg /\ totalPages pg <= 1) ->
  exists w',
    fetchAllPatients server now apiKey baseUrl w = (Ok (recordsOf body), w')
    /\ sent w' = S (sent w)
    /\ io (trace w') = io (trace w) ++ [EvFetch (GetPatients baseUrl apiKey 1 5)].
Proof.
  intros Hreply Hbody Hpages.
  assert (Htotal : Z.to_nat (totalPagesOf (delivered now 1 5 body) - 1) = 0%nat).
  { unfold totalPagesOf, delivered, withEmptyData.
    destruct Hpages as [Hnone|(pg & Hpg & Hle)].
    - rewrite Hnone. destruct (data body); cbn; rewrite ?Hnone; reflexivity.
    - rewrite Hpg. destruct (data body); cbn; rewrite ?Hpg;
        destruct (totalPages pg =? 0); lia. }
  unfold fetchAllPatients. unfold bind at 1 2. unfold onProgress, emit at 1.
  cbv beta iota. unfold reportingErrors, tryCatch.
  match goal with
  | |- context [fetchPatientsPage _ _ _ _ _ _ ?w1] =>
      destruct (fetchPatientsPage_success server now apiKey baseUrl 1 5 w1 _ _
                  Hreply Hbody)
        as (w2 & Hrun & Hsent2 & Hio2)
  end.
  rewrite Hrun. cbv beta iota. unfold bind at 1 2. unfold emit at 1.
  cbv beta iota. rewrite pushAll_delivered, Htotal. cbn [fetchRemainingPages].
  unfold ret, bind, emit. cbv beta iota.
  eexists. split; [reflexivity|]. cbn [sent trace app] in *.
  split; [exact Hsent2|].
  rewrite !io_snoc_progress, Hio2, io_snoc_progress. reflexivity.
Qed.

Lemma single_page_run_witness :
  exists w',
    fetchAllPatients
      (fun _ _ => Reply (mkResponse 200 "OK" ""
                           (Some (Obj (mkPatientsResponse
                                         (Some [samplePatient "DEMO007"])
                                         None None)))))
      sampleNow sampleKey sampleUrl initial
    = (Ok [samplePatient "DEMO007"], w')
    /\ sent w' = 1%nat
    /\ io (trace w') = [EvFetch (GetPatients sampleUrl sampleKey 1 5)].
Proof.
  apply (single_page_run
           (fun _ _ => Reply (mkResponse 200 "OK"%string ""%string
                                (Some (Obj (mkPatientsResponse
                                              (Some [samplePatient "DEMO007"])
                                              None None)))))
           sampleNow sampleKey sampleUrl initial
           (mkResponse 200 "OK"%string ""%string
              (Some (Obj (mkPatientsResponse
                            (Some [samplePatient "DEMO007"]) None None))))
           (mkPatientsResponse (Some [samplePatient "DEMO007"]) None None)).
  - reflexivity.
  - reflexivity.
  - left. reflexivity.
Defined.



(** ** Submission *)

Lemma submitTryBlock_retryable_sleep T
    (server : nat -> Request -> FetchOutcome T) apiKey baseUrl results attempt
    w response :
  server (sent w) (PostAssessment baseUrl apiKey results) = Reply response ->
  isRetryableError (status response) = true ->
  exists w',
    submitTryBlock T server apiKey baseUrl results attempt w = (Ok Continue, w')
    /\ sent w' = S (sent w)
    /\ sleeps (trace w')
       = sleeps (trace w)
         ++ [getExponentialBackoff attempt
               (if status response =? 429 then 2000 else 1000)].
Proof.
  intros Hreply Hretry. unfold submitTryBlock, bind, fetch.
  rewrite Hreply, Hretry, retryLater_run. cbn.
  eexists. split; [reflexivity|]. cbn. split; [reflexivity|].
  rewrite !sleeps_app. cbn. rewrite app_nil_r. reflexivity.
Qed.

(** X14. [submitAssessment] passes the answer through: after any number
    [k <= 4] of retryable statuses, a successful response whose body
    parses makes the call return the parsed body as it is (an object or
    not) at request [k + 1], having slept once per retryable status,
    [base * 2 ^ attempt] with the base 2000 for a 429 and 1000 for a 500
    or 503. *)
Theorem submitAssessment_passes_through
    (T : Type) (server : nat -> Request -> FetchOutcome T)
    (apiKey baseUrl : string) (results : AssessmentResults) (w : World)
    (k : nat) (retried : nat -> Response T) (good : Response T)
    (value : JsonValue T) :
  (k < 5)%nat ->
  (forall j, (j < k)%nat ->
     server (sent w + j)%nat (PostAssessment baseUrl apiKey results)
     = Reply (retried j)
     /\ isRetryableError (status (retried j)) = true) ->
  server (sent w + k)%nat (PostAssessment baseUrl apiKey results) = Reply good ->
  isRetryableError (status good) = false ->
  ok good = true ->
  json good = Some value ->
  exists w',
    submitAssessment T server apiKey baseUrl results w = (Ok value, w')
    /\ sent w' = (sent w + k + 1)%nat
    /\ sleeps (trace w')
       = sleeps (trace w)
         ++ map (fun j => getExponentialBackoff (Z.of_nat j)
                            (if status (retried j) =? 429 then 2000 else 1000))
              (seq 0 k).
Proof.
  intros Hk Hretried Hgood Hretry Hok Hjson.
  unfold submitAssessment. change (Z.to_nat MAX_RETRIES) with 5%nat.
  replace 5%nat with (k + S (4 - k))%nat by lia.
  destruct (retryLoop_skip_continues SubmissionTarget
              (submitTryBlock T server apiKey baseUrl results)
              (fun j => getExponentialBackoff (Z.of_nat j)
                          (if status (retried j) =? 429 then 2000 else 1000))
              k (S (4 - k)) 0 None w)
    as (w1 & Hrun & Hsent1 & Hsleep1).
  - intros j w1 Hj Hw1. destruct (Hretried j Hj) as [Hreply Hr].
    rewrite <- Hw1 in Hreply.
    apply (submitTryBlock_retryable_sleep T server apiKey baseUrl results
             (0 + Z.of_nat j) w1 (retried j) Hreply Hr).
  - rewrite Hrun. rewrite <- Hsent1 in Hgood.
    rewrite (retryLoop_return _ _ _ _ _ _ _ _
               (submitTryBlock_success T server apiKey baseUrl results
                  (0 + Z.of_nat k) w1 good value Hgood Hretry Hok Hjson)).
    eexists. split; [reflexivity|]. cbn [sent trace].
    split; [lia|]. rewrite sleeps_snoc_fetch. exact Hsleep1.
Qed.

Lemma submitAssessment_passes_through_witness :
  exists w',
    submitAssessment unit
      (fun n _ =>
         if (n <? 1)%nat then Reply (statusReply 500 "Internal Server Error")
         else if (n <? 2)%nat then Reply (statusReply 429 "Too Many Requests")
         else Reply (mkResponse 200 "OK" "null" (Some NotAnObject)))
      sampleKey sampleUrl sampleResults initial
    = (Ok NotAnObject, w')
    /\ sent w' = 3%nat
    /\ sleeps (trace w') = [1000; 4000].
Proof.
  apply (submitAssessment_passes_through unit
           (fun n _ =>
              if (n <? 1)%nat
              then Reply (statusReply 500 "Internal Server Error"%string)
              else if (n <? 2)%nat
                   then Reply (statusReply 429 "Too Many Requests"%string)
                   else Reply (mkResponse 200 "OK"%string "null"%string
                                 (Some NotAnObject)))
           sampleKey sampleUrl sampleResults initial 2
           (fun j => if (j <? 1)%nat
                     then statusReply 500 "Internal Server Error"%string
                     else statusReply 429 "Too Many Requests"%string)
           (mkResponse 200 "OK"%string "null"%string (Some NotAnObject))
           NotAnObject); try reflexivity; [lia|].
  intros j Hj. destruct j as [|[|j]]; [split; reflexivity..|lia].
Defined.

(** ** The forwarding endpoints *)

Lemma unobserved_adds_no_progress {A} (m : M A) (w : World) :
  fst (unobserved m w) = fst (m w)
  /\ sent (snd (unobserved m w)) = sent (snd (m w))
  /\ exists added,
       trace (snd (unobserved m w)) = trace w ++ added
       /\ forall p, ~ In (EvProgress p) added.
Proof.
  unfold unobserved. destruct (m w) as [r w']. cbn [fst snd sent trace].
  repeat split. eexists. split; [reflexivity|].
  intros p Hp. apply filter_In in Hp as [_ Hp]. discriminate Hp.
Qed.



(** X16. The fetch-patients route: without the configuration it answers
    500 and sends no request; with it, when every page the run visits is
    answered by a successful JSON object, it answers 200 with the
    records of the pages in page order and their number as [count],
    after one request per page and without any progress notification;
    and it answers 200 exactly when the retrieval returns, 500 with the
    error otherwise. *)
Theorem GET_forwards_retrieval
    (server : nat -> Request -> FetchOutcome PatientsResponse)
    (now : string) (env : Env) (w : World) :
  let '(response, logged, w') := GET server now env w in
  let configured := negb (unset (API_KEY env) || unset (API_BASE_URL env)) in
  let run :=
    fetchAllPatients server now (valueOf (API_KEY env))
      (valueOf (API_BASE_URL env)) w in
  (configured = false ->
     httpStatus response = 500 /\ w' = w
     /\ payload response
        = GetConfigMissing (negb (unset (API_KEY env)))
            (negb (unset (API_BASE_URL env))))
  /\ (configured = true ->
      sent w' = sent (snd run)
      /\ (exists added,
            trace w' = trace w ++ added
            /\ forall p, ~ In (EvProgress p) added)
      /\ match fst run with
         | Ok patients =>
             response
             = mkNextResponse 200
                 (GetSuccess patients (Z.of_nat (List.length patients)))
         | Throw e => response = mkNextResponse 500 (GetFailed e)
         end)
  /\ (configured = true ->
      forall replies bodies,
        let total := totalPagesOf (delivered now 1 5 (bodies 1)) in
        let pages := 1 :: pageRange 2 (Z.to_nat (total - 1)) in
        (forall n p, In p pages ->
           server n (GetPatients (valueOf (API_BASE_URL env))
                       (valueOf (API_KEY env)) p 5)
           = Reply (replies p)
           /\ successBody (replies p) = Some (bodies p)) ->
        let records := flat_map (fun p => recordsOf (bodies p)) pages in
        response
        = mkNextResponse 200
            (GetSuccess records (Z.of_nat (List.length records)))
        /\ sent w' = (sent w + List.length pages)%nat).
Proof.
  unfold GET.
  destruct (unset (API_KEY env) || unset (API_BASE_URL env)) eqn:Hconf.
  - cbn. split; [intros _; repeat split|]. split; discriminate.
  - pose proof (unobserved_adds_no_progress
                  (fetchAllPatients server now (valueOf (API_KEY env))
                     (valueOf (API_BASE_URL env))) w) as (Hfst & Hsent & Hadded).
    destruct (unobserved _ w) as [r w1] eqn:Hun. cbn [fst snd] in *.
    destruct r as [patients|e]; cbv beta iota zeta; cbn [negb];
      (split; [discriminate|]).
    + split.
      * intros _. rewrite <- Hfst.
        split; [exact Hsent|split; [exact Hadded|reflexivity]].
      * intros _ replies bodies Hok.
        destruct (fetchAllPatients_run server now (valueOf (API_KEY env))
                    (valueOf (API_BASE_URL env)) replies bodies Hok w)
          as (w2 & Hrun & Hsent2 & _).
        rewrite Hrun in Hfst, Hsent. cbn [fst snd] in *.
        injection Hfst as ->. split; [reflexivity|]. rewrite Hsent. exact Hsent2.
    + split.
      * intros _. rewrite <- Hfst.
        split; [exact Hsent|split; [exact Hadded|reflexivity]].
      * intros _ replies bodies Hok.
        destruct (fetchAllPatients_run server now (valueOf (API_KEY env))
                    (valueOf (API_BASE_URL env)) replies bodies Hok w)
          as (w2 & Hrun & _).
        rewrite Hrun in Hfst. discriminate Hfst.
Qed.

Lemma GET_forwards_retrieval_witness :
  httpStatus (fst (fst (GET (wellFormedPages 3) sampleNow (mkEnv (Some sampleKey) None)
                          initial))) = 500
  /\ fst (fst (GET (wellFormedPages 2) sampleNow sampleEnv initial))
     = mkNextResponse 200
         (GetSuccess [samplePatient "DEMO001"; samplePatient "DEMO001"] 2).
Proof.
  split.
  - pose proof (GET_forwards_retrieval (wellFormedPages 3) sampleNow
                  (mkEnv (Some sampleKey) None) initial) as H.
    destruct (GET (wellFormedPages 3) sampleNow (mkEnv (Some sampleKey) None)
                initial) as [[response logged] w'].
    apply (proj1 H). reflexivity.
  - pose proof (GET_forwards_retrieval (wellFormedPages 2) sampleNow sampleEnv
                  initial) as H.
    destruct (GET (wellFormedPages 2) sampleNow sampleEnv initial)
      as [[response logged] w'].
    destruct H as (_ & _ & H).
    destruct (H eq_refl (fun p => pageReply p 2)
                (fun p => mkPatientsResponse
                            (Some [samplePatient "DEMO001"])
                            (Some (mkPagination p 5 1 2 false false))
                            (Some (mkMetadata "2024-01-15T00:00:00Z" "v1.0" "r1"))))
      as [Hresp _].
    + intros n p _. split; reflexivity.
    + exact Hresp.
Defined.

(** ** The terminal notification *)

Lemma fetchRemainingPages_throw_notifies
    (server : nat -> Request -> FetchOutcome PatientsResponse)
    (now apiKey baseUrl : string) (totalPages : Z) :
  forall remaining currentPage allPatients w e w',
    fetchRemainingPages server now apiKey baseUrl remaining currentPage
      totalPages allPatients w = (Throw e, w') ->
    exists t p c,
      trace w' = t ++ [EvProgress (mkProgress p totalPages c (MsgError e) Error)].
Proof.
  induction remaining as [|remaining IH];
    intros currentPage allPatients w e w' Hrun.
  - discriminate Hrun.
  - cbn [fetchRemainingPages] in Hrun.
    unfold bind at 1 2 3 in Hrun. unfold sleep, onProgress, emit at 1 2 in Hrun.
    cbv beta iota in Hrun. unfold reportingErrors, tryCatch in Hrun.
    match type of Hrun with
    | context [fetchPatientsPage _ _ _ _ _ _ ?w1] =>
        destruct (fetchPatientsPage server now apiKey baseUrl currentPage 5 w1)
          as [[pageData|e1] w2]
    end.
    + unfold bind at 1 in Hrun. unfold emit at 1 in Hrun. cbv beta iota in Hrun.
      apply IH in Hrun. exact Hrun.
    + unfold bind, emit, throw in Hrun. cbv beta iota in Hrun.
      injection Hrun as <- <-. eexists _, _, _. reflexivity.
Qed.

Lemma run_terminal
    (server : nat -> Request -> FetchOutcome PatientsResponse)
    (now apiKey baseUrl : string) (w w' : World) (r : Outcome (list Patient)) :
  fetchAllPatients server now apiKey baseUrl w = (r, w') ->
  match r with
  | Ok patients =>
      exists t total,
        trace w'
        = t ++ [EvProgress
                  (mkProgress total total (count patients)
                     (MsgAllFetched (count patients)) Success)]
  | Throw e =>
      exists t p total c,
        trace w' = t ++ [EvProgress (mkProgress p total c (MsgError e) Error)]
  end.
Proof.
  intros Hrun. unfold fetchAllPatients in Hrun.
  unfold bind at 1 2 in Hrun. unfold onProgress, emit at 1 in Hrun.
  cbv beta iota in Hrun. unfold reportingErrors, tryCatch in Hrun.
  match type of Hrun with
  | context [fetchPatientsPage _ _ _ _ _ _ ?w1] =>
      destruct (fetchPatientsPage server now apiKey baseUrl 1 5 w1)
        as [[firstPageData|e1] w2]
  end.
  - unfold bind at 1 2 in Hrun. unfold emit at 1 in Hrun. cbv beta iota in Hrun.
    match type of Hrun with
    | context [fetchRemainingPages _ _ _ _ ?n ?c ?tp ?all ?w3] =>
        destruct (fetchRemainingPages server now apiKey baseUrl n c tp all w3)
          as [[allPatients|e2] w4] eqn:Hrest
    end.
    + unfold bind, emit, ret in Hrun. cbv beta iota in Hrun.
      injection Hrun as <- <-. eexists _, _. reflexivity.
    + injection Hrun as <- <-.
      destruct (fetchRemainingPages_throw_notifies _ _ _ _ _ _ _ _ _ _ _ Hrest)
        as (t & p & c & Htrace).
      exists t, p, (totalPagesOf firstPageData), c. exact Htrace.
  - unfold bind, emit, throw in Hrun. cbv beta iota in Hrun.
    injection Hrun as <- <-. eexists _, _, _, _. reflexivity.
Qed.

(** X17. Every run of [fetchAllPatients] ends with a terminal
    notification: a run that returns its records has last notified the
    observer of the success with the number of records it returns, and a
    run that raises an error has last notified the observer of that
    error. *)
Theorem run_ends_with_terminal_notification
    (server : nat -> Request -> FetchOutcome PatientsResponse)
    (now apiKey baseUrl : string) (w w' : World) :
  (forall patients,
     fetchAllPatients server now apiKey baseUrl w = (Ok patients, w') ->
     exists t total,
       trace w'
       = t ++ [EvProgress
                 (mkProgress total total (Z.of_nat (List.length patients))
                    (MsgAllFetched (Z.of_nat (List.length patients))) Success)])
  /\ (forall e,
        fetchAllPatients server now apiKey baseUrl w = (Throw e, w') ->
        exists t p total c,
          trace w' = t ++ [EvProgress (mkProgress p total c (MsgError e) Error)]).
Proof.
  split.
  - intros patients Hrun. exact (run_terminal _ _ _ _ _ _ _ Hrun).
  - intros e Hrun. exact (run_terminal _ _ _ _ _ _ _ Hrun).
Qed.

Lemma run_ends_with_terminal_notification_witness :
  exists t total,
    trace (snd (fetchAllPatients threePages sampleNow sampleKey sampleUrl initial))
    = t ++ [EvProgress (mkProgress total total 2 (MsgAllFetched 2) Success)].
Proof.
  apply (proj1 (run_ends_with_terminal_notification threePages sampleNow
                  sampleKey sampleUrl initial
                  (snd (fetchAllPatients threePages sampleNow sampleKey
                          sampleUrl initial)))
           [samplePatient "DEMO001"; samplePatient "DEMO001"]).
  reflexivity.
Defined.

Lemma cohorts_of_assessed_witness :
  In "DEMO009"%string
    (data_quality_issues
       (categorizePatients
          (map assessPatientRisk
             [mkPatient "DEMO009" "A" VNull "F" (Some (str "150/95"))
                (VNumber lit_101_0) "" "" ""]))).
Proof.
  apply (proj2 (proj2 (cohorts_of_assessed
                         [mkPatient "DEMO009" "A" VNull "F" (Some (str "150/95"))
                            (VNumber lit_101_0) "" "" ""]
                         "DEMO009"%string))
           (mkPatient "DEMO009" "A" VNull "F" (Some (str "150/95"))
              (VNumber lit_101_0) "" "" "")).
  - left. reflexivity.
  - reflexivity.
  - right. left. reflexivity.
Defined.
